(** * Keyboard input decoding of [engine/keyboard.py]

    A shallow embedding of the [Keys] tables and of the [Keyboard] class:
    the escape-sequence decode loop of [_read_into_buffer], the terminal
    mode guard ([__enter__] / [__exit__]) and the token buffer operations
    ([getch], [clear]).

    Conventions.
    - A Python [str] is a list of Unicode code points ([pystr]); a one
      character string is a singleton list and [ord] of it is its element.
    - A [bytes] value is a list of integers in [0, 255].
    - Python exceptions are values of [exn]; a call either returns or
      raises ([result]).
    - A [Keyboard] instance is a handle into a heap of objects; the class
      attribute [Keyboard._owner] is a field of the world state.
    - Standard input is an open terminal: [pending] holds the bytes that
      can be read right now, [arrivals] the later bursts of typed bytes.
      A burst becomes readable when a call waits for input; end of file
      does not occur. *)

From Stdlib Require Import ZArith List String Ascii Bool Lia.
From Stdlib Require Import Floats.PrimFloat.
From Stdlib Require Uint63.
From stdpp Require Import base option list gmap.

Local Open Scope Z_scope.

(** ** Python values *)

Definition pystr := list Z.
Definition bytes := list Z.

(** A key token is what [getch] hands out: a Python string. *)
Definition token := pystr.

Definition str (s : string) : pystr :=
  (fun a => Z.of_N (N_of_ascii a)) <$> list_ascii_of_string s.

Inductive exn : Set :=
  | AssertionError
  | KeyError
  | IndexError
  | ValueError
  | AttributeError
  | UnicodeDecodeError.

Inductive result (A : Type) : Type :=
  | Ok (a : A)
  | Raise (e : exn).
Arguments Ok {A} a.
Arguments Raise {A} e.

#[global] Instance result_ret : MRet result := fun A a => Ok a.
#[global] Instance result_bind : MBind result := fun A B f m =>
  match m with
  | Ok a => f a
  | Raise e => Raise e
  end.

#[global] Instance result_fmap : FMap result := fun A B f m =>
  match m with
  | Ok a => Ok (f a)
  | Raise e => Raise e
  end.

(** [assert cond] *)
Definition assert (cond : bool) : result unit :=
  if cond then Ok tt else Raise AssertionError.

Module Py.

(** [data.startswith(prefix)] *)
Fixpoint startswith (prefix data : pystr) : bool :=
  match prefix, data with
  | [], _ => true
  | _ :: _, [] => false
  | p :: prefix', d :: data' => (p =? d) && startswith prefix' data'
  end.

(** [data[i]] for a non-negative [i] *)
Definition getitem (data : pystr) (i : nat) : result Z :=
  match data !! i with
  | Some c => Ok c
  | None => Raise IndexError
  end.

(** [c in data] for a one character string [c] *)
Fixpoint contains (c : Z) (data : pystr) : bool :=
  match data with
  | [] => false
  | d :: data' => (d =? c) || contains c data'
  end.

(** [data.index(c)] for a one character string [c] *)
Fixpoint index (c : Z) (data : pystr) : result nat :=
  match data with
  | [] => Raise ValueError
  | d :: data' => if d =? c then Ok O else S <$> index c data'
  end.

(** [data[i:j]] and [data[i:]] for non-negative [i], [j] *)
Definition slice (data : pystr) (i j : nat) : pystr := take (j - i) (drop i data).
Definition slice_from (data : pystr) (i : nat) : pystr := drop i data.

(** [code.split(sep)[0]]: the part of [code] before the first [sep] *)
Fixpoint split_first (sep : Z) (code : pystr) : pystr :=
  match code with
  | [] => []
  | d :: code' => if d =? sep then [] else d :: split_first sep code'
  end.

(** [table[key]] and [table.get(key, default)] on a dict literal *)
Fixpoint dict_get {K V} `{EqDecision K} (table : list (K * V)) (key : K) : option V :=
  match table with
  | [] => None
  | (k, v) :: table' => if decide (k = key) then Some v else dict_get table' key
  end.

Definition dict_getitem {K V} `{EqDecision K} (table : list (K * V)) (key : K) : result V :=
  match dict_get table key with
  | Some v => Ok v
  | None => Raise KeyError
  end.

Definition dict_get_default {K V} `{EqDecision K} (table : list (K * V)) (key : K) (d : V) : V :=
  default d (dict_get table key).

End Py.

(** ** The [Keys] class: key constants and decode tables *)

Module Keys.

Definition PAGE_UP : token := str "KEY_PAGE_UP".
Definition PAGE_DOWN : token := str "KEY_PAGE_DOWN".
Definition UP : token := str "KEY_UP".
Definition DOWN : token := str "KEY_DOWN".
Definition RIGHT : token := str "KEY_RIGHT".
Definition LEFT : token := str "KEY_LEFT".
Definition ESC : token := str "KEY_ESC".
Definition ENTER : token := str "KEY_ENTER".
Definition SPACE : token := str "KEY_SPACE".
Definition BACKSPACE : token := str "KEY_BACKSPACE".
Definition TAB : token := str "KEY_TAB".
Definition INSERT : token := str "KEY_INSERT".
Definition DELETE : token := str "KEY_DELETE".
Definition END : token := str "KEY_END".
Definition HOME : token := str "KEY_HOME".
Definition F1 : token := str "KEY_F1".
Definition F2 : token := str "KEY_F2".
Definition F3 : token := str "KEY_F3".
Definition F4 : token := str "KEY_F4".
Definition F5 : token := str "KEY_F5".
Definition F6 : token := str "KEY_F6".
Definition F7 : token := str "KEY_F7".
Definition F8 : token := str "KEY_F8".
Definition F9 : token := str "KEY_F9".
Definition F10 : token := str "KEY_F10".
Definition F11 : token := str "KEY_F11".
Definition F12 : token := str "KEY_F12".

(** The key constants of the class, by attribute name, in source order. *)
Definition constants : list (string * token) :=
  [ ("PAGE_UP", PAGE_UP); ("PAGE_DOWN", PAGE_DOWN); ("UP", UP); ("DOWN", DOWN);
    ("RIGHT", RIGHT); ("LEFT", LEFT); ("ESC", ESC); ("ENTER", ENTER);
    ("SPACE", SPACE); ("BACKSPACE", BACKSPACE); ("TAB", TAB);
    ("INSERT", INSERT); ("DELETE", DELETE); ("END", END); ("HOME", HOME);
    ("F1", F1); ("F2", F2); ("F3", F3); ("F4", F4); ("F5", F5); ("F6", F6);
    ("F7", F7); ("F8", F8); ("F9", F9); ("F10", F10); ("F11", F11);
    ("F12", F12) ]%string.

Definition KEYS_TABLE : list (Z * token) :=
  [ (8, BACKSPACE); (9, TAB); (10, ENTER); (27, ESC); (32, SPACE);
    (127, BACKSPACE) ].

Definition SS3_MAPPING : list (Z * token) :=
  [ (80, F1); (81, F2); (82, F3); (83, F4) ].

Definition CSI_TABLE : list (pystr * token) :=
  [ (str "1", HOME); (str "2", INSERT); (str "3", DELETE); (str "4", END);
    (str "5", PAGE_UP); (str "6", PAGE_DOWN);
    (str "15", F5); (str "17", F6); (str "18", F7); (str "19", F8);
    (str "20", F9); (str "21", F10); (str "23", F11); (str "24", F12);
    (str "A", UP); (str "B", DOWN); (str "C", RIGHT); (str "D", LEFT);
    (str "F", END); (str "H", HOME); (str "Z", TAB) ].

End Keys.

(** ** [bytes.decode('utf-8')]

    Strict decoding, as Python does it: shortest forms only, no surrogates,
    nothing above U+10FFFF; any ill-formed input raises. *)

Module Utf8.

Definition in_range (lo hi b : Z) : bool := (lo <=? b) && (b <=? hi).
Definition is_cont (b : Z) : bool := in_range 0x80 0xBF b.
Definition low6 (b : Z) : Z := Z.land b 0x3F.

Fixpoint decode (bs : bytes) : result pystr :=
  match bs with
  | [] => Ok []
  | b0 :: t0 =>
    if in_range 0 0x7F b0 then cons b0 <$> decode t0
    else if in_range 0xC2 0xDF b0 then
      match t0 with
      | b1 :: t1 =>
        if is_cont b1
        then cons (Z.lor (Z.shiftl (Z.land b0 0x1F) 6) (low6 b1)) <$> decode t1
        else Raise UnicodeDecodeError
      | _ => Raise UnicodeDecodeError
      end
    else if in_range 0xE0 0xEF b0 then
      match t0 with
      | b1 :: b2 :: t2 =>
        if in_range (if b0 =? 0xE0 then 0xA0 else 0x80)
                    (if b0 =? 0xED then 0x9F else 0xBF) b1 && is_cont b2
        then cons (Z.lor (Z.shiftl (Z.land b0 0x0F) 12)
                    (Z.lor (Z.shiftl (low6 b1) 6) (low6 b2))) <$> decode t2
        else Raise UnicodeDecodeError
      | _ => Raise UnicodeDecodeError
      end
    else if in_range 0xF0 0xF4 b0 then
      match t0 with
      | b1 :: b2 :: b3 :: t3 =>
        if in_range (if b0 =? 0xF0 then 0x90 else 0x80)
                    (if b0 =? 0xF4 then 0x8F else 0xBF) b1
           && is_cont b2 && is_cont b3
        then cons (Z.lor (Z.shiftl (Z.land b0 0x07) 18)
                    (Z.lor (Z.shiftl (low6 b1) 12)
                      (Z.lor (Z.shiftl (low6 b2) 6) (low6 b3)))) <$> decode t3
        else Raise UnicodeDecodeError
      | _ => Raise UnicodeDecodeError
      end
    else Raise UnicodeDecodeError
  end.

End Utf8.

(** ** The terminal: attributes and input queue

    The attribute list of [termios.tcgetattr], and [tty.setcbreak] of the
    Python standard library with the Linux values of its constants. *)

Module Termios.

Record attrs : Type := mk_attrs {
  iflag : Z; oflag : Z; cflag : Z; lflag : Z;
  ispeed : Z; ospeed : Z;
  cc : list Z
}.

Definition ECHO : Z := 8.
Definition ICANON : Z := 2.
Definition VTIME : nat := 5.
Definition VMIN : nat := 6.
Definition NCCS : nat := 32.

(** [mode[LFLAG] &= ~(ECHO | ICANON); mode[CC][VMIN] = 1; mode[CC][VTIME] = 0] *)
Definition cbreak (mode : attrs) : attrs :=
  {| iflag := iflag mode; oflag := oflag mode; cflag := cflag mode;
     lflag := Z.land (lflag mode) (Z.lnot (Z.lor ECHO ICANON));
     ispeed := ispeed mode; ospeed := ospeed mode;
     cc := <[VTIME := 0]> (<[VMIN := 1]> (cc mode)) |}.

(** Character-at-a-time input without echo. *)
Definition is_cbreak (mode : attrs) : Prop :=
  Z.testbit (lflag mode) 1 = false /\ Z.testbit (lflag mode) 3 = false /\
  cc mode !! VMIN = Some 1 /\ cc mode !! VTIME = Some 0.

End Termios.

(** A [Keyboard] instance: its attributes.  [_original_settings] exists
    only between [__enter__] and [__exit__]. *)
Record instance : Type := mk_instance {
  _buffer : list token;
  _original_settings : option Termios.attrs
}.

(** The instance as [__init__] leaves it. *)
#[global] Instance instance_inhabited : Inhabited instance :=
  populate {| _buffer := []; _original_settings := None |}.

(** The state the methods act on.  A handle that is not in [heap] denotes
    an instance as [__init__] leaves it. *)
Record World : Type := mk_World {
  owner : option nat;              (* Keyboard._owner *)
  tty_attrs : Termios.attrs;       (* attributes of the terminal on stdin *)
  pending : bytes;                 (* typed bytes, readable now *)
  arrivals : list bytes;           (* bursts typed later *)
  heap : gmap nat instance         (* the Keyboard instances *)
}.

(** What a call does: return, raise, wait for input that never comes, or
    (of the model only) run out of loop iterations. *)
Inductive outcome (A : Type) : Type :=
  | Returns (a : A) (w : World)
  | Raises (e : exn) (w : World)
  | Blocks
  | Timeout.
Arguments Returns {A} a w.
Arguments Raises {A} e w.
Arguments Blocks {A}.
Arguments Timeout {A}.

Definition M (A : Type) : Type := World -> outcome A.

Definition ret {A} (a : A) : M A := fun w => Returns a w.
Definition bind {A B} (m : M A) (f : A -> M B) : M B := fun w =>
  match m w with
  | Returns a w' => f a w'
  | Raises e w' => Raises e w'
  | Blocks => Blocks
  | Timeout => Timeout
  end.
Definition raise {A} (e : exn) : M A := fun w => Raises e w.
Definition get : M World := fun w => Returns w w.

Declare Scope py_scope.
Delimit Scope py_scope with py.
Notation "x <- m ;; k" := (bind m (fun x => k))
  (at level 20, m at level 99, k at level 200, only parsing) : py_scope.

Definition lift {A} (r : result A) : M A :=
  match r with
  | Ok a => ret a
  | Raise e => raise e
  end.

Definition self_of (w : World) (self : nat) : instance := heap w !!! self.

Definition set_owner (o : option nat) : M unit := fun w =>
  Returns tt (mk_World o (tty_attrs w) (pending w) (arrivals w) (heap w)).
Definition set_tty_attrs (a : Termios.attrs) : M unit := fun w =>
  Returns tt (mk_World (owner w) a (pending w) (arrivals w) (heap w)).
Definition set_input (p : bytes) (a : list bytes) : M unit := fun w =>
  Returns tt (mk_World (owner w) (tty_attrs w) p a (heap w)).
Definition set_self (self : nat) (i : instance) : M unit := fun w =>
  Returns tt (mk_World (owner w) (tty_attrs w) (pending w) (arrivals w)
                       (<[self := i]> (heap w))).

Definition set_buffer (self : nat) (b : list token) : M unit := fun w =>
  set_self self (mk_instance b (_original_settings (self_of w self))) w.
Definition set_original_settings (self : nat) (o : option Termios.attrs) : M unit :=
  fun w => set_self self (mk_instance (_buffer (self_of w self)) o) w.

Module Stdin.

(** The next non-empty burst of typed bytes, for a call that waits. *)
Fixpoint next_burst (a : list bytes) : option (bytes * list bytes) :=
  match a with
  | [] => None
  | [] :: a' => next_burst a'
  | (b :: bs) :: a' => Some (b :: bs, a')
  end.

(** Wait until stdin is readable. *)
Definition wait_readable : M unit := fun w =>
  match pending w with
  | _ :: _ => Returns tt w
  | [] =>
    match next_burst (arrivals w) with
    | Some (b, a') => set_input b a' w
    | None => Blocks
    end
  end.

(** [os.read(sys.stdin.fileno(), n)]: waits for input when there is none,
    then takes at most [n] bytes. *)
Definition os_read (n : nat) : M bytes :=
  (_ <- wait_readable ;;
   w <- get ;;
   _ <- set_input (drop n (pending w)) (arrivals w) ;;
   ret (take n (pending w)))%py.

(** [select.select([sys.stdin], [], [], timeout) == ([sys.stdin], [], [])]
    with [timeout] either [None] (wait) or [0]. *)
Definition select_readable (wait : bool) : M bool :=
  if wait then (_ <- wait_readable ;; ret true)%py
  else (w <- get ;; ret (match pending w with [] => false | _ => true end))%py.

(** [termios.tcgetattr(sys.stdin)] *)
Definition tcgetattr : M Termios.attrs := fun w => Returns (tty_attrs w) w.

(** [termios.tcsetattr(sys.stdin, termios.TCSADRAIN, a)] *)
Definition tcsetattr_drain (a : Termios.attrs) : M unit := set_tty_attrs a.

(** [termios.tcsetattr(sys.stdin, termios.TCSAFLUSH, a)]: the input
    typed but not yet read is thrown away. *)
Definition tcsetattr_flush (a : Termios.attrs) : M unit :=
  (_ <- set_tty_attrs a ;;
   w <- get ;;
   set_input [] (arrivals w))%py.

(** [tty.setcbreak(sys.stdin.fileno())] *)
Definition setcbreak : M unit :=
  (mode <- tcgetattr ;; tcsetattr_flush (Termios.cbreak mode))%py.

End Stdin.

(** ** The [Keyboard] class *)

Module Keyboard.

Definition CSI : pystr := [27; 91].                   (* '\033[' *)
Definition SS3 : pystr := [27; 79].                   (* '\033O' *)
Definition EXTENDED_ANSI_SEQ : pystr := [27; 91; 49; 59].   (* '\033[1;' *)

Definition tilde : Z := 126.
Definition semicolon : Z := 59.

(** ['0' <= c <= '9'] on a one character string *)
Definition is_digit (c : Z) : bool := (48 <=? c) && (c <=? 57).

(** One iteration of the [while data:] loop: the key appended to the
    buffer and the new value of [data], or the exception raised. *)
Definition decode_step (data : pystr) : result (token * pystr) :=
  if Py.startswith SS3 data then
    c ← Py.getitem data 2;
    key ← Py.dict_getitem Keys.SS3_MAPPING c;
    mret (key, Py.slice_from data 3)
  else if Py.startswith EXTENDED_ANSI_SEQ data then
    _ ← assert (6 <=? length data)%nat;
    c ← Py.getitem data 5;
    key ← Py.dict_getitem Keys.CSI_TABLE [c];
    mret (key, Py.slice_from data 6)
  else if Py.startswith CSI data then
    _ ← assert (3 <=? length data)%nat;
    c ← Py.getitem data 2;
    if is_digit c then
      _ ← assert (Py.contains tilde data);
      pos ← Py.index tilde data;
      let code := Py.slice data 2 pos in
      let code := if Py.contains semicolon code
                  then Py.split_first semicolon code else code in
      let data' := Py.slice_from data (pos + 1) in
      key ← Py.dict_getitem Keys.CSI_TABLE code;
      mret (key, data')
    else
      let code := [c] in
      let data' := Py.slice_from data 3 in
      key ← Py.dict_getitem Keys.CSI_TABLE code;
      mret (key, data')
  else
    c ← Py.getitem data 0;
    let key := Py.dict_get_default Keys.KEYS_TABLE c [c] in
    mret (key, Py.slice_from data 1).

(** The loop itself.  [buffer] is [self._buffer]; the result is the
    buffer when the loop ends and the exception that ended it, if any.
    [None] means that [fuel] iterations were not enough. *)
Fixpoint decode_loop (fuel : nat) (data : pystr) (buffer : list token)
  : option (list token * option exn) :=
  match data with
  | [] => Some (buffer, None)
  | _ :: _ =>
    match fuel with
    | O => None
    | S fuel' =>
      match decode_step data with
      | Raise e => Some (buffer, Some e)
      | Ok (key, data') => decode_loop fuel' data' (buffer ++ [key])
      end
    end
  end.

(** The loop run with as many iterations as [data] has characters. *)
Definition decode (data : pystr) (buffer : list token)
  : option (list token * option exn) :=
  decode_loop (length data) data buffer.

(** The read loop at the head of [_read_into_buffer]:
    [while True: data += os.read(fd, 1024); if not self._has_data(False): break] *)
Definition _has_data (wait : bool) : M bool := Stdin.select_readable wait.

Definition BUFSIZE : nat := 1024.

Fixpoint read_loop (fuel : nat) (data : bytes) : M bytes :=
  (chunk <- Stdin.os_read BUFSIZE ;;
   more <- _has_data false ;;
   if negb more then ret (data ++ chunk)
   else match fuel with
        | O => fun _ => Timeout
        | S fuel' => read_loop fuel' (data ++ chunk)
        end)%py.

(** Every pass takes at least one byte, so the bytes that can ever be
    read bound the number of passes. *)
Definition read_fuel (w : World) : nat :=
  (length (pending w) + length (concat (arrivals w)))%nat.

Definition _read_into_buffer (self : nat) : M unit :=
  (w <- get ;;
   data <- read_loop (read_fuel w) [] ;;
   data <- lift (Utf8.decode data) ;;
   w <- get ;;
   match decode data (_buffer (self_of w self)) with
   | None => fun _ => Timeout
   | Some (buffer, e) =>
     _ <- set_buffer self buffer ;;
     match e with
     | Some e => raise e
     | None => ret tt
     end
   end)%py.

(** [self._buffer.popleft()] *)
Definition popleft (self : nat) : M token :=
  (w <- get ;;
   match _buffer (self_of w self) with
   | [] => raise IndexError
   | key :: rest => _ <- set_buffer self rest ;; ret key
   end)%py.

Definition owner_is (o : option nat) : M unit :=
  (w <- get ;; lift (assert (bool_decide (owner w = o))))%py.

Definition __enter__ (self : nat) : M nat :=
  (_ <- owner_is None ;;
   _ <- set_owner (Some self) ;;
   a <- Stdin.tcgetattr ;;
   _ <- set_original_settings self (Some a) ;;
   _ <- Stdin.setcbreak ;;
   ret self)%py.

Definition __exit__ (self : nat) : M unit :=
  (_ <- owner_is (Some self) ;;
   w <- get ;;
   match _original_settings (self_of w self) with
   | None => raise AttributeError
   | Some a =>
     _ <- Stdin.tcsetattr_drain a ;;
     _ <- set_original_settings self None ;;
     set_owner None
   end)%py.

(** [None] is Python's [None]. *)
Definition getch (self : nat) (block : bool) : M (option token) :=
  (_ <- owner_is (Some self) ;;
   w <- get ;;
   if (0 <? length (_buffer (self_of w self)))%nat then
     key <- popleft self ;; ret (Some key)
   else
     ready <- _has_data block ;;
     if negb ready then ret None
     else
       _ <- _read_into_buffer self ;;
       key <- popleft self ;; ret (Some key))%py.

Definition clear (self : nat) : M unit :=
  (ready <- _has_data false ;;
   _ <- (if ready then _read_into_buffer self else ret tt) ;;
   set_buffer self [])%py.

End Keyboard.

(** ** The script under [if __name__ == '__main__'] *)

Module Main.

(** The keys written by [print(f"Pressed: {key}")] so far, and how the
    run went on from there. *)
Definition run : Type := list (option token) * outcome unit.

(** [while True: key = keyboard.getch(True); print(...); if key == Keys.ESC: break] *)
Fixpoint loop (fuel : nat) (keyboard : nat) (printed : list (option token))
    (w : World) : run :=
  match fuel with
  | O => (printed, Timeout)
  | S fuel' =>
    match Keyboard.getch keyboard true w with
    | Returns key w' =>
      let printed := printed ++ [key] in
      if bool_decide (key = Some Keys.ESC) then (printed, Returns tt w')
      else loop fuel' keyboard printed w'
    | Raises e w' => (printed, Raises e w')
    | Blocks => (printed, Blocks)
    | Timeout => (printed, Timeout)
    end
  end.

(** [with Keyboard() as keyboard: ...].  [Keyboard()] is a new instance;
    [__exit__] runs when the loop ends and when it raises, and as it
    returns [None] the exception of the loop goes on. *)
Definition main (fuel : nat) (w : World) : run :=
  let keyboard := fresh (dom (heap w)) in
  match Keyboard.__enter__ keyboard w with
  | Returns keyboard w1 =>
    let '(printed, body) := loop fuel keyboard [] w1 in
    match body with
    | Returns _ w2 => (printed, Keyboard.__exit__ keyboard w2)
    | Raises e w2 =>
      (printed, match Keyboard.__exit__ keyboard w2 with
                | Returns _ w3 => Raises e w3
                | other => other
                end)
    | Blocks => (printed, Blocks)
    | Timeout => (printed, Timeout)
    end
  | Raises e w1 => ([], Raises e w1)
  | Blocks => ([], Blocks)
  | Timeout => ([], Timeout)
  end.

End Main.


(** ** Vocabulary of the statements *)

(** The character sequences with a recognized CSI prefix that the loop
    looks up under a key [CSI_TABLE] does not have: a single terminator,
    a numeric code closed by [~], or the terminator after [ESC [ 1 ; m]. *)
Inductive unknown_csi : pystr -> Prop :=
  | unknown_letter (c : Z) :
      Keyboard.is_digit c = false ->
      Py.dict_get Keys.CSI_TABLE [c] = None ->
      unknown_csi (Keyboard.CSI ++ [c])
  | unknown_numeric (d : Z) (body : pystr) :
      Keyboard.is_digit d = true ->
      Py.contains Keyboard.tilde body = false ->
      Py.startswith Keyboard.EXTENDED_ANSI_SEQ (Keyboard.CSI ++ d :: body) = false ->
      Py.dict_get Keys.CSI_TABLE (Py.split_first Keyboard.semicolon (d :: body)) = None ->
      unknown_csi (Keyboard.CSI ++ d :: body ++ [Keyboard.tilde])
  | unknown_extended (m t : Z) :
      Py.dict_get Keys.CSI_TABLE [t] = None ->
      unknown_csi (Keyboard.EXTENDED_ANSI_SEQ ++ [m; t]).

(** The loop gets from [data] with [buffer] to [data'] with [buffer']
    by iterations that do not raise. *)
Inductive reaches : pystr -> list token -> pystr -> list token -> Prop :=
  | reaches_here data buffer : reaches data buffer data buffer
  | reaches_step data buffer key data1 data' buffer' :
      data <> [] ->
      Keyboard.decode_step data = Ok (key, data1) ->
      reaches data1 (buffer ++ [key]) data' buffer' ->
      reaches data buffer data' buffer'.

(** The encodings the decode tables stand for, one per table row: a
    control character, [ESC O c], [ESC [ c] for a letter and
    [ESC [ code ~] for a numeric code. *)
Definition encodings : list (pystr * token) :=
  ((fun '(c, key) => ([c], key)) <$> Keys.KEYS_TABLE) ++
  ((fun '(c, key) => (Keyboard.SS3 ++ [c], key)) <$> Keys.SS3_MAPPING) ++
  ((fun '(code, key) =>
      (Keyboard.CSI ++ code ++
         (if Keyboard.is_digit (hd 0 code) then [Keyboard.tilde] else []), key))
     <$> Keys.CSI_TABLE).

(** [data] does not go on with the second character of an escape prefix. *)
Definition safe_head (data : pystr) : bool :=
  match data with
  | [] => true
  | c :: _ => negb (c =? 79) && negb (c =? 91)
  end.

(** What a poll of stdin finds: the readable bytes and the bursts still
    to come, or nothing ([None]) when no byte is there and the poll does
    not wait, or waits for ever. *)
Definition ready (wait : bool) (w : World) : option (bytes * list bytes) :=
  match pending w with
  | _ :: _ => Some (pending w, arrivals w)
  | [] => if wait then Stdin.next_burst (arrivals w) else None
  end.

(** [w] with the input queue replaced. *)
Definition with_input (w : World) (p : bytes) (a : list bytes) : World :=
  mk_World (owner w) (tty_attrs w) p a (heap w).

(** [w] with the input queue and the buffer of [self] replaced. *)
Definition with_input_buffer (w : World) (p : bytes) (a : list bytes)
    (self : nat) (b : list token) : World :=
  mk_World (owner w) (tty_attrs w) p a
    (<[self := mk_instance b (_original_settings (self_of w self))]> (heap w)).

(** The method calls of a program that uses the keyboard. *)
Inductive call : Type :=
  | Enter (h : nat)
  | Exit (h : nat)
  | Getch (h : nat) (block : bool)
  | Clear (h : nat).

(** [w'] is the state after the call, whether it returned or raised. *)
Definition after (c : call) (w w' : World) : Prop :=
  match c with
  | Enter h => (exists r, Keyboard.__enter__ h w = Returns r w') \/
               (exists e, Keyboard.__enter__ h w = Raises e w')
  | Exit h => (exists r, Keyboard.__exit__ h w = Returns r w') \/
              (exists e, Keyboard.__exit__ h w = Raises e w')
  | Getch h block => (exists r, Keyboard.getch h block w = Returns r w') \/
                     (exists e, Keyboard.getch h block w = Raises e w')
  | Clear h => (exists r, Keyboard.clear h w = Returns r w') \/
               (exists e, Keyboard.clear h w = Raises e w')
  end.

(** The states reached while [self] holds the keyboard: any calls but
    the [__exit__] of [self]. *)
Inductive during (self : nat) : World -> World -> Prop :=
  | during_refl w : during self w w
  | during_call w c w1 w' :
      c <> Exit self -> after c w w1 -> during self w1 w' -> during self w w'.

(** A call that leaves the owner slot, the terminal attributes and the
    saved settings of every instance as they were. *)
Definition frame (w w' : World) : Prop :=
  owner w' = owner w /\ tty_attrs w' = tty_attrs w /\
  forall h, _original_settings (self_of w' h) = _original_settings (self_of w h).

Definition preserves {A} (m : M A) : Prop :=
  forall w,
    match m w with
    | Returns _ w' | Raises _ w' => frame w w'
    | Blocks | Timeout => True
    end.

(** A terminal in its usual line mode and worlds around it, for the
    concrete runs below. *)
Definition attrs0 : Termios.attrs :=
  Termios.mk_attrs 0x4500 5 0xBF 0x8A3B 15 15 (replicate 32 0).

Definition world0 (o : option nat) (p : bytes) : World :=
  mk_World o attrs0 p [] ∅.

(** [world0] once instance 0 has entered. *)
Definition world1 : World :=
  mk_World (Some 0%nat) (Termios.cbreak attrs0) [] []
    (<[0%nat := mk_instance [] (Some attrs0)]> ∅).

(** [n] calls of [getch] in a row, as a program polling for keys makes
    them: the results in order; the first call that raises ends the run. *)
Fixpoint getch_n (self : nat) (block : bool) (n : nat) : M (list (option token)) :=
  match n with
  | O => ret []
  | S n' =>
    (key <- Keyboard.getch self block ;;
     keys <- getch_n self block n' ;;
     ret (key :: keys))%py
  end.

(** The burst of bytes [b] is typed at once and stands for [keys]. *)
Definition burst_keys (b : bytes) (keys : list token) : Prop :=
  b <> [] /\
  exists data, Utf8.decode b = Ok data /\ Keyboard.decode data [] = Some (keys, None).

(** The token of a character that starts no escape sequence. *)
Definition direct_key (c : Z) : token :=
  Py.dict_get_default Keys.KEYS_TABLE c [c].

(** ** [rt/image.py]: colors and the [Image] class *)

Module PyList.

(** [l[i]] and [l[i] = x] on a Python list, for any integer [i]: an index
    below zero counts from the end, one out of range raises. *)
Definition position {A} (l : list A) (i : Z) : result nat :=
  let n := Z.of_nat (length l) in
  let j := if i <? 0 then i + n else i in
  if (0 <=? j) && (j <? n) then Ok (Z.to_nat j) else Raise IndexError.

Definition getitem {A} (l : list A) (i : Z) : result A :=
  j ← position l i;
  match l !! j with
  | Some x => Ok x
  | None => Raise IndexError
  end.

Definition setitem {A} (l : list A) (i : Z) (x : A) : result (list A) :=
  j ← position l i;
  mret (<[j := x]> l).

(** [range(lo, hi)] *)
Definition range (lo hi : Z) : list Z := seqZ lo (hi - lo).

(** [for x in items: body], the body acting on a state [S]; an exception
    ends the loop. *)
Fixpoint for_each {A S} (items : list A) (body : A -> S -> result S) (s : S)
  : result S :=
  match items with
  | [] => Ok s
  | x :: items' => s' ← body x s; for_each items' body s'
  end.

End PyList.

Module Image.

(** A color component: a Python [float] or [int]. *)
Inductive num : Type :=
  | Int (z : Z)
  | Float (f : float).

(** A tuple of components, as passed to [__setitem__]. *)
Definition tuple := list num.

(** [Color4f]: a named tuple of four components. *)
Record Color4f : Type := mk_Color4f { r : num; g : num; b : num; a : num }.

Definition as_tuple (c : Color4f) : tuple := [r c; g c; b c; a c].

(** [x < 0.0] and [x > 1.0]; Python compares an [int] with a [float] by
    value. *)
Definition lt_zero (x : num) : bool :=
  match x with
  | Int z => z <? 0
  | Float f => PrimFloat.ltb f 0%float
  end.

Definition gt_one (x : num) : bool :=
  match x with
  | Int z => 1 <? z
  | Float f => PrimFloat.ltb 1%float f
  end.

(** [0.0 if x < 0.0 else (1.0 if x > 1.0 else x)] *)
Definition trim1 (x : num) : num :=
  if lt_zero x then Float 0%float else if gt_one x then Float 1%float else x.

Definition trim (self : Color4f) : Color4f :=
  mk_Color4f (trim1 (r self)) (trim1 (g self)) (trim1 (b self)) (trim1 (a self)).

(** An element of [_data].  [__init__] and [__setitem__] are the only
    writers of [_data] and both store tuples of four components. *)
Definition pixel : Type := num * num * num * num.

Definition color_of (p : pixel) : Color4f :=
  let '(r, g, b, a) := p in mk_Color4f r g b a.

Record Image : Type := mk_Image {
  _width : Z;
  _height : Z;
  _data : list pixel
}.

Definition white : pixel :=
  (Float 1%float, Float 1%float, Float 1%float, Float 1%float).

Definition size (self : Image) : Z * Z := (_width self, _height self).

Definition __init__ (width height : Z) : result Image :=
  _ ← assert ((0 <? width) && (0 <? height));
  mret (mk_Image width height (replicate (Z.to_nat (width * height)) white)).

(** [(0 <= x < self._width) and (0 <= y < self._height)] *)
Definition inside (self : Image) (x y : Z) : bool :=
  (0 <=? x) && (x <? _width self) && ((0 <=? y) && (y <? _height self)).

Definition __setitem__ (self : Image) (position : Z * Z) (value : tuple)
  : result Image :=
  let '(x, y) := position in
  stored ← match value with
           | [r; g; b] => Ok (r, g, b, Int 255)          (* value + (255, ) *)
           | [r; g; b; a] => Ok (r, g, b, a)
           | _ => Raise AssertionError                   (* 3 <= len(value) <= 4 *)
           end;
  _ ← assert (inside self x y);
  data ← PyList.setitem (_data self) (y * _width self + x) stored;
  mret (mk_Image (_width self) (_height self) data).

Definition __getitem__ (self : Image) (position : Z * Z) : result Color4f :=
  let '(x, y) := position in
  _ ← assert (inside self x y);
  p ← PyList.getitem (_data self) (y * _width self + x);
  mret (color_of p).

Definition crop (self : Image) (crop_to : Z * Z * Z * Z) : result Image :=
  let '(x0, y0, x1, y1) := crop_to in
  _ ← assert ((0 <=? x0) && (x0 <=? x1) && (x1 <? _width self) &&
              ((0 <=? y0) && (y0 <=? y1) && (y1 <? _height self)));
  texture ← __init__ (x1 - x0 + 1) (y1 - y0 + 1);
  PyList.for_each (PyList.range y0 (y1 + 1)) (fun y texture =>
    PyList.for_each (PyList.range x0 (x1 + 1)) (fun x texture =>
      c ← __getitem__ self (x, y);
      __setitem__ texture (x - x0, y - y0) (as_tuple c)) texture) texture.

End Image.

(** [PNMLoader.from_pnm], on the lines that iterating the open file
    gives.  The builtins it calls on strings and numbers are taken as
    they are: [str.strip], [str.split], [int] of a string ([None] where
    Python raises [ValueError]) and the true division of two [int]s,
    which raises when the quotient is beyond the floats. *)
Module PNMLoader.

Section Builtins.

Variable strip : pystr -> pystr.
Variable split : pystr -> list pystr.
Variable int : pystr -> option Z.
Variable truediv : Z -> Z -> result float.

Definition to_int (s : pystr) : result Z :=
  match int s with
  | Some z => Ok z
  | None => Raise ValueError
  end.

(** [a, b = map(int, fields)] and [a, b, c = map(int, fields)]: every way
    to fail, a field that is no number or a wrong number of fields, is a
    [ValueError]. *)
Definition unpack2 (fields : list pystr) : result (Z * Z) :=
  match fields with
  | [a; b] => x ← to_int a; y ← to_int b; mret (x, y)
  | _ => Raise ValueError
  end.

Definition unpack3 (fields : list pystr) : result (Z * Z * Z) :=
  match fields with
  | [a; b; c] => x ← to_int a; y ← to_int b; z ← to_int c; mret (x, y, z)
  | _ => Raise ValueError
  end.

(** [range(lo, hi, step)] for a positive [step] *)
Definition range_step (lo hi step : Z) : list Z :=
  (fun k => lo + k * step) <$> seqZ 0 ((hi - lo + step - 1) `div` step).

(** [lines[i:j]] for [0 <= i <= j] *)
Definition slice {A} (lines : list A) (i j : Z) : list A :=
  take (Z.to_nat (j - i)) (drop (Z.to_nat i) lines).

(** [(r/255, g/255, b/255, 0.0 if (r, g, b) == transparency else 1.0)] *)
Definition color (transparency : option (Z * Z * Z)) (rgb : Z * Z * Z)
  : result Image.pixel :=
  let '(r, g, b) := rgb in
  rf ← truediv r 255;
  gf ← truediv g 255;
  bf ← truediv b 255;
  mret (Image.Float rf, Image.Float gf, Image.Float bf,
        Image.Float (if bool_decide (Some (r, g, b) = transparency)
                     then 0%float else 1%float)).

(** The body of the loop over [pos]: one color read from three lines. *)
Definition read_color (lines : list pystr) (transparency : option (Z * Z * Z))
    (pos : Z) (values : list Image.pixel) : result (list Image.pixel) :=
  rgb ← unpack3 (slice lines pos (pos + 3));
  value ← color transparency rgb;
  mret (values ++ [value]).

Definition is_comment (line : pystr) : bool := Py.startswith (str "#") line.

(** The part under "Build Image instance". *)
Definition build (width height : Z) (values : list Image.pixel)
    (crop_to : option (Z * Z * Z * Z)) : result Image.Image :=
  texture ← Image.__init__ width height;
  texture ← PyList.for_each (PyList.range 0 height) (fun y texture =>
    PyList.for_each (PyList.range 0 width) (fun x texture =>
      value ← PyList.getitem values (y * width + x);
      Image.__setitem__ texture (x, y) (Image.as_tuple (Image.color_of value)))
      texture) texture;
  match crop_to with
  | Some rect => Image.crop texture rect
  | None => Ok texture
  end.

Definition from_pnm (file : list pystr) (crop_to : option (Z * Z * Z * Z))
    (transparency : option (Z * Z * Z)) : result Image.Image :=
  let lines := strip <$> file in
  let lines := List.filter (fun line => negb (is_comment line)) lines in
  magic ← PyList.getitem lines 0;
  _ ← assert (bool_decide (magic = str "P3"));
  dims ← PyList.getitem lines 1;
  '(width, height) ← unpack2 (split dims);
  depth ← PyList.getitem lines 2;
  _ ← assert (bool_decide (depth = str "255"));
  values ← PyList.for_each (range_step 3 (Z.of_nat (length lines)) 3)
    (read_color lines transparency) [];
  _ ← assert (bool_decide (Z.of_nat (length values) = width * height));
  build width height values crop_to.

End Builtins.

End PNMLoader.

(** An image as [__init__] and [__setitem__] make them: a positive size
    and one pixel for each position. *)
Definition image_wf (img : Image.Image) : Prop :=
  0 < Image._width img /\ 0 < Image._height img /\
  length (Image._data img) = Z.to_nat (Image._width img * Image._height img).

(** The component values of the pixels of a PNM file, three for each
    pixel, in the order of the file. *)
Definition pnm_body (rgbs : list (Z * Z * Z)) : list Z :=
  rgbs ≫= (fun '(r, g, b) => [r; g; b]).

(** The lines [body] hold the numbers [zs]. *)
Definition pnm_parses (int : pystr -> option Z) (body : list pystr) (zs : list Z) : Prop :=
  Forall2 (fun s z => int s = Some z) body zs.

(** The triples [rgbs] make the colors [colors]: no division raises. *)
Definition pnm_colors (truediv : Z -> Z -> result float)
    (transparency : option (Z * Z * Z))
    (rgbs : list (Z * Z * Z)) (colors : list Image.pixel) : Prop :=
  Forall2 (fun rgb value => PNMLoader.color truediv transparency rgb = Ok value)
    rgbs colors.

(** The lines of [from_pnm] after the two comprehensions: stripped, the
    comments left out. *)
Definition pnm_lines (strip : pystr -> pystr) (file : list pystr) : list pystr :=
  List.filter (fun line => negb (PNMLoader.is_comment line)) (strip <$> file).

(** The builtins of [from_pnm] on ASCII text, and the division on
    numbers below [2^53] and a divisor that is not zero, where it does
    not raise and is the division of the converted operands; they run
    the loader on the sample files below. *)
Module AsciiText.

Definition isspace (c : Z) : bool :=
  ((9 <=? c) && (c <=? 13)) || ((28 <=? c) && (c <=? 32)).

Fixpoint lstrip (s : pystr) : pystr :=
  match s with
  | c :: s' => if isspace c then lstrip s' else s
  | [] => []
  end.

Definition strip (s : pystr) : pystr := rev (lstrip (rev (lstrip s))).

Fixpoint split_from (s word : pystr) : list pystr :=
  match s with
  | [] => match word with [] => [] | _ => [word] end
  | c :: s' =>
    if isspace c
    then match word with [] => split_from s' [] | _ => word :: split_from s' [] end
    else split_from s' (word ++ [c])
  end.

Definition split (s : pystr) : list pystr := split_from s [].

(** Decimal digits, single underscores between them allowed. *)
Fixpoint digits (s : pystr) (acc : Z) (after_digit : bool) : option Z :=
  match s with
  | [] => if after_digit then Some acc else None
  | c :: s' =>
    if c =? 95
    then (if after_digit then digits s' acc false else None)
    else if (48 <=? c) && (c <=? 57)
         then digits s' (10 * acc + (c - 48)) true
         else None
  end.

Definition int (s : pystr) : option Z :=
  match strip s with
  | 43 :: s' => digits s' 0 false
  | 45 :: s' => Z.opp <$> digits s' 0 false
  | s' => digits s' 0 false
  end.

Definition float_of (z : Z) : float :=
  if z <? 0 then PrimFloat.opp (of_uint63 (Uint63.of_Z (- z)))
  else of_uint63 (Uint63.of_Z z).

Definition truediv (a b : Z) : result float :=
  Ok (PrimFloat.div (float_of a) (float_of b)).

End AsciiText.

(** A PNM file of two pixels in a row, a black one and a red one, as
    iterating the open file gives its lines. *)
Definition sample_pnm : list pystr :=
  (fun line => str line ++ [10]) <$>
    ["P3"; "# two pixels"; "2 1"; "255"; "0"; "0"; "0"; "  255"; "0"; "0"]%string.

(** * Properties *)

Example scenario_A : Keyboard.decode [27; 91; 65] [] = Some ([Keys.UP], None).
Proof. reflexivity. Qed.
Example scenario_B : Keyboard.decode [27; 91; 49; 53; 126] [] = Some ([Keys.F5], None).
Proof. reflexivity. Qed.
Example scenario_C : Keyboard.decode [27; 79; 80] [] = Some ([Keys.F1], None).
Proof. reflexivity. Qed.
Example scenario_D : Keyboard.decode [27; 91; 57; 57; 126; 97] [] = Some ([], Some KeyError).
Proof. reflexivity. Qed.
Example literal_a : Keyboard.decode [97] [] = Some ([[97]], None).
Proof. reflexivity. Qed.

Example utf8_two_bytes : Utf8.decode [0xC3; 0xA9] = Ok [0xE9].
Proof. reflexivity. Qed.
Example utf8_three_bytes : Utf8.decode [0xE2; 0x82; 0xAC] = Ok [0x20AC].
Proof. reflexivity. Qed.
Example utf8_four_bytes : Utf8.decode [0xF0; 0x9F; 0x98; 0x80] = Ok [0x1F600].
Proof. reflexivity. Qed.
Example utf8_overlong : Utf8.decode [0xC0; 0x80] = Raise UnicodeDecodeError.
Proof. reflexivity. Qed.
Example utf8_surrogate : Utf8.decode [0xED; 0xA0; 0x80] = Raise UnicodeDecodeError.
Proof. reflexivity. Qed.
Example utf8_too_large : Utf8.decode [0xF4; 0x90; 0x80; 0x80] = Raise UnicodeDecodeError.
Proof. reflexivity. Qed.
Example utf8_truncated : Utf8.decode [97; 0xC3] = Raise UnicodeDecodeError.
Proof. reflexivity. Qed.

(** ** Python helpers *)

Section PyFacts.

Lemma startswith_spec (prefix data : pystr) :
  Py.startswith prefix data = true <-> exists rest, data = prefix ++ rest.
Proof.
  revert data. induction prefix as [|p prefix IH]; intros data; simpl.
  - split; [intros _; by exists data | done].
  - destruct data as [|d data].
    + split; [done | intros [rest Hrest]; discriminate].
    + rewrite andb_true_iff, Z.eqb_eq, IH. split.
      * intros [-> [rest ->]]. by exists rest.
      * intros [rest [= -> ->]]. split; [done | by exists rest].
Qed.

Lemma index_spec (c : Z) (data : pystr) (pos : nat) :
  Py.index c data = Ok pos ->
  exists before after,
    data = before ++ c :: after /\ length before = pos /\
    Py.contains c before = false.
Proof.
  revert pos. induction data as [|d data IH]; intros pos; simpl; [done|].
  destruct (Z.eqb_spec d c) as [->|Hne].
  - intros [= <-]. by exists [], data.
  - destruct (Py.index c data) as [n|e] eqn:Hidx; simpl; [|done].
    intros [= <-]. destruct (IH n eq_refl) as (before & after & -> & <- & Hnc).
    exists (d :: before), after. simpl. split_and!; [done..|].
    rewrite Hnc. by destruct (Z.eqb_spec d c).
Qed.

Lemma index_app (c : Z) (before after : pystr) :
  Py.contains c before = false ->
  Py.index c (before ++ c :: after) = Ok (length before).
Proof.
  induction before as [|d before IH]; simpl.
  - by rewrite Z.eqb_refl.
  - intros [Hd Hb]%orb_false_iff. by rewrite Hd, IH.
Qed.

Lemma contains_app (c : Z) (xs ys : pystr) :
  Py.contains c (xs ++ ys) = Py.contains c xs || Py.contains c ys.
Proof.
  induction xs as [|x xs IH]; simpl; [done|]. by rewrite IH, orb_assoc.
Qed.

Lemma contains_index (c : Z) (data : pystr) :
  Py.contains c data = true -> exists pos, Py.index c data = Ok pos.
Proof.
  induction data as [|d data IH]; simpl; [done|].
  destruct (d =? c); simpl; [by exists O|].
  intros [pos ->]%IH. by exists (S pos).
Qed.

End PyFacts.

(** ** The decode loop *)

Section DecodeLoop.

Import Keyboard.

(** What one iteration takes from [data], by branch. *)
Lemma decode_step_consumes (data : pystr) :
  match decode_step data with
  | Raise _ => True
  | Ok (_, data') =>
    if Py.startswith SS3 data then length data = (length data' + 3)%nat
    else if Py.startswith EXTENDED_ANSI_SEQ data then length data = (length data' + 6)%nat
    else if Py.startswith CSI data then (length data' + 3 <= length data)%nat
    else length data = (length data' + 1)%nat
  end.
Proof.
  unfold decode_step.
  destruct (Py.startswith SS3 data) eqn:Hss3.
  { apply startswith_spec in Hss3 as [rest ->].
    destruct rest as [|c rest]; simpl; [done|].
    destruct (Py.dict_getitem Keys.SS3_MAPPING c); simpl; [lia | done]. }
  destruct (Py.startswith EXTENDED_ANSI_SEQ data) eqn:Hext.
  { apply startswith_spec in Hext as [rest ->].
    destruct rest as [|m [|t rest]]; simpl; [done..|].
    destruct (Py.dict_getitem Keys.CSI_TABLE [t]); simpl; [lia | done]. }
  destruct (Py.startswith CSI data) eqn:Hcsi.
  { apply startswith_spec in Hcsi as [rest ->].
    destruct rest as [|c rest]; simpl; [done|].
    destruct (is_digit c) eqn:Hdig.
    - assert ((c =? tilde) = false) as ->.
      { unfold is_digit, tilde in *. lia. }
      simpl. destruct (Py.contains tilde rest) eqn:Hc; simpl; [|done].
      destruct (contains_index _ _ Hc) as [n ->]. simpl.
      destruct (Py.dict_getitem Keys.CSI_TABLE _); simpl; [|done].
      unfold Py.slice_from. simpl. rewrite length_drop. lia.
    - destruct (Py.dict_getitem Keys.CSI_TABLE [c]); simpl; [lia | done]. }
  destruct data as [|c data]; simpl; [done | lia].
Qed.

Lemma decode_step_shorter (data data' : pystr) (key : token) :
  decode_step data = Ok (key, data') -> (length data' < length data)%nat.
Proof.
  intros Hstep. pose proof (decode_step_consumes data) as H.
  rewrite Hstep in H. repeat case_match; lia.
Qed.

(** Fuel beyond the length of [data] changes nothing. *)
Lemma decode_loop_enough (fuel : nat) (data : pystr) (buffer : list token) :
  (length data <= fuel)%nat ->
  decode_loop fuel data buffer = decode data buffer /\
  is_Some (decode data buffer).
Proof.
  unfold decode. remember (length data) as n eqn:Hn.
  revert fuel data buffer Hn.
  induction n as [n IH] using lt_wf_ind. intros fuel data buffer -> Hle.
  destruct data as [|c data]; [by destruct fuel|].
  destruct fuel as [|fuel]; [simpl in Hle; lia|].
  cbn [length decode_loop].
  destruct (decode_step (c :: data)) as [[key data']|e] eqn:Hstep; [|done].
  apply decode_step_shorter in Hstep. cbn [length] in Hstep, Hle.
  destruct (IH (length data') ltac:(simpl; lia) fuel data' (buffer ++ [key]) eq_refl ltac:(lia))
    as [-> _].
  destruct (IH (length data') ltac:(simpl; lia) (length data) data' (buffer ++ [key]) eq_refl ltac:(lia))
    as [-> Hsome].
  done.
Qed.

Lemma decode_cons (data data' : pystr) (key : token) (buffer : list token) :
  data <> [] ->
  decode_step data = Ok (key, data') ->
  decode data buffer = decode data' (buffer ++ [key]).
Proof.
  intros Hne Hstep. destruct data as [|c data]; [done|].
  unfold decode at 1. cbn [length decode_loop]. rewrite Hstep.
  apply decode_loop_enough. apply decode_step_shorter in Hstep.
  cbn [length] in Hstep. lia.
Qed.

Lemma decode_raise (data : pystr) (e : exn) (buffer : list token) :
  data <> [] ->
  decode_step data = Raise e ->
  decode data buffer = Some (buffer, Some e).
Proof.
  intros Hne Hstep. destruct data as [|c data]; [done|].
  unfold decode. cbn [length decode_loop]. by rewrite Hstep.
Qed.

(** C10. The decode loop of [_read_into_buffer] terminates on every
    input string: an iteration that raises ends the loop, and one that
    does not takes characters from [data] (3 for SS3, 6 for extended
    CSI, at least 3 for standard CSI, 1 for a direct character), so
    [length data] iterations are always enough. *)
Theorem decode_loop_terminates (data : pystr) (buffer : list token) :
  match decode_step data with
  | Raise _ => True
  | Ok (_, data') =>
    (length data' < length data)%nat /\
    if Py.startswith SS3 data then length data = (length data' + 3)%nat
    else if Py.startswith EXTENDED_ANSI_SEQ data then length data = (length data' + 6)%nat
    else if Py.startswith CSI data then (length data' + 3 <= length data)%nat
    else length data = (length data' + 1)%nat
  end /\
  exists r, decode_loop (length data) data buffer = Some r.
Proof.
  split.
  - pose proof (decode_step_consumes data) as H.
    destruct (decode_step data) as [[key data']|e] eqn:Hstep; [|done].
    split; [by eapply decode_step_shorter | done].
  - destruct (decode_loop_enough (length data) data buffer (Nat.le_refl _))
      as [_ [r Hr]].
    by exists r.
Qed.

Lemma decode_reaches data buffer data' buffer' :
  reaches data buffer data' buffer' ->
  decode data buffer = decode data' buffer'.
Proof.
  induction 1 as [|data buffer key data1 data' buffer' Hne Hstep _ IH]; [done|].
  by rewrite (decode_cons _ _ _ _ Hne Hstep).
Qed.

(** The extended branch on [ESC [ 1 ; m t rest]. *)
Lemma decode_step_extended (m t : Z) (rest : pystr) :
  decode_step (EXTENDED_ANSI_SEQ ++ m :: t :: rest) =
    (key ← Py.dict_getitem Keys.CSI_TABLE [t]; mret (key, rest)).
Proof. done. Qed.

(** C9. In [ESC [ 1 ; m t] the modifier character [m] plays no part:
    the iteration looks [t] up in [CSI_TABLE] and leaves what follows
    the six characters, so two inputs that differ in [m] alone decode
    alike. *)
Theorem extended_csi_ignores_modifier (m m' t : Z) (rest : pystr) (buffer : list token) :
  decode_step (EXTENDED_ANSI_SEQ ++ m :: t :: rest) =
    (key ← Py.dict_getitem Keys.CSI_TABLE [t]; mret (key, rest)) /\
  decode_step (EXTENDED_ANSI_SEQ ++ m :: t :: rest) =
    decode_step (EXTENDED_ANSI_SEQ ++ m' :: t :: rest) /\
  decode (EXTENDED_ANSI_SEQ ++ m :: t :: rest) buffer =
    decode (EXTENDED_ANSI_SEQ ++ m' :: t :: rest) buffer.
Proof.
  pose proof (decode_step_extended m t rest) as Hm.
  pose proof (decode_step_extended m' t rest) as Hm'.
  split_and!; [done | by rewrite Hm, Hm' |].
  destruct (Py.dict_getitem Keys.CSI_TABLE [t]) as [key|e].
  - etrans; [by apply (decode_cons _ rest key buffer) in Hm|].
    symmetry. by apply (decode_cons _ rest key buffer) in Hm'.
  - etrans; [by apply (decode_raise _ e buffer) in Hm|].
    symmetry. by apply (decode_raise _ e buffer) in Hm'.
Qed.

(** The two CSI branches check the length before they index. *)
Lemma extended_short_asserts (data : pystr) :
  Py.startswith EXTENDED_ANSI_SEQ data = true -> (length data < 6)%nat ->
  decode_step data = Raise AssertionError.
Proof.
  intros [rest ->]%startswith_spec Hlen.
  destruct rest as [|m [|t rest]]; [done..|]. simpl in Hlen. lia.
Qed.

Lemma csi_short_asserts (data : pystr) :
  Py.startswith CSI data = true -> (length data < 3)%nat ->
  decode_step data = Raise AssertionError.
Proof.
  intros [rest ->]%startswith_spec Hlen.
  destruct rest as [|c rest]; [done|]. simpl in Hlen. lia.
Qed.

(** The SS3 branch indexes [data[2]] without a check. *)
Lemma ss3_short_indexes (data : pystr) :
  Py.startswith SS3 data = true -> (length data < 3)%nat ->
  decode_step data = Raise IndexError.
Proof.
  intros [rest ->]%startswith_spec Hlen.
  destruct rest as [|c rest]; [done|]. simpl in Hlen. lia.
Qed.

(** C4. A run that starts with [ESC O] and stops there is not turned
    down by a length check as the short CSI runs are: [data[2]] is
    evaluated and the index is out of range. *)
Theorem ss3_short_run_index_error :
  decode_step [27; 79] = Raise IndexError /\
  decode [27; 79] [] = Some ([], Some IndexError) /\
  decode_step [27; 91; 49; 59; 53] = Raise AssertionError /\
  decode_step [27; 91] = Raise AssertionError.
Proof. by split_and!. Qed.

Lemma split_first_id (sep : Z) (code : pystr) :
  Py.contains sep code = false -> Py.split_first sep code = code.
Proof.
  induction code as [|d code IH]; simpl; [done|].
  intros [-> Hc]%orb_false_iff. by rewrite IH.
Qed.

(** The numeric branch on [ESC [ d body ~ rest]. *)
Lemma decode_step_numeric (d : Z) (body rest : pystr) :
  is_digit d = true ->
  Py.contains tilde body = false ->
  Py.startswith EXTENDED_ANSI_SEQ (CSI ++ d :: body) = false ->
  decode_step (CSI ++ d :: body ++ tilde :: rest) =
    (key ← Py.dict_getitem Keys.CSI_TABLE (Py.split_first semicolon (d :: body));
     mret (key, rest)).
Proof.
  intros Hdig Hbody Hext.
  assert (Hd : (d =? tilde) = false) by (unfold is_digit, tilde in *; lia).
  assert (Hext' : Py.startswith EXTENDED_ANSI_SEQ (CSI ++ d :: body ++ tilde :: rest) = false).
  { unfold EXTENDED_ANSI_SEQ, CSI, tilde in *. cbn [Py.startswith app] in *.
    destruct (49 =? d); [|done].
    destruct body as [|b body]; cbn [Py.startswith app] in *; [done|].
    by destruct (59 =? b). }
  unfold decode_step. rewrite Hext'.
  change (Py.startswith SS3 _) with false.
  change (Py.startswith CSI _) with true.
  cbn -[Py.dict_getitem Py.split_first Py.contains Py.index Py.slice Py.slice_from is_digit].
  rewrite Hdig.
  assert (Hbefore : Py.contains tilde (27 :: 91 :: d :: body) = false).
  { cbn [Py.contains]. by rewrite Hd, Hbody. }
  pose proof (index_app tilde (27 :: 91 :: d :: body) rest Hbefore) as Hidx.
  cbn [app length] in Hidx. rewrite Hidx.
  assert (Hc : Py.contains tilde (27 :: 91 :: d :: body ++ tilde :: rest) = true).
  { change (27 :: 91 :: d :: body ++ tilde :: rest)
      with ((27 :: 91 :: d :: body) ++ tilde :: rest).
    rewrite contains_app, Hbefore. cbn [Py.contains]. by rewrite Z.eqb_refl. }
  rewrite Hc. cbn [assert mbind result_bind].
  assert (Hcode : Py.slice (27 :: 91 :: d :: body ++ tilde :: rest) 2
                    (S (S (S (length body)))) = d :: body).
  { unfold Py.slice. cbn [drop Nat.sub take]. by rewrite take_app_length. }
  assert (Hrest : Py.slice_from (27 :: 91 :: d :: body ++ tilde :: rest)
                    (S (S (S (length body))) + 1) = rest).
  { unfold Py.slice_from. cbn [drop Nat.add].
    rewrite Nat.add_1_r. clear. induction body as [|b body IH]; [done|]. apply IH. }
  rewrite Hcode, Hrest.
  destruct (Py.contains semicolon (d :: body)) eqn:Hsemi; [done|].
  by rewrite (split_first_id _ _ Hsemi).
Qed.

Lemma unknown_csi_step (seq rest : pystr) :
  unknown_csi seq -> decode_step (seq ++ rest) = Raise KeyError.
Proof.
  intros [c Hdig Hget | d body Hdig Hbody Hext Hget | m t Hget].
  - unfold decode_step. cbn [app CSI].
    change (Py.startswith SS3 _) with false.
    assert (Py.startswith EXTENDED_ANSI_SEQ (27 :: 91 :: c :: rest) = false) as ->.
    { unfold EXTENDED_ANSI_SEQ. cbn [Py.startswith].
      destruct (Z.eqb_spec 49 c) as [<-|]; [done|].
      by rewrite !andb_false_r || done. }
    change (Py.startswith CSI _) with true.
    cbn -[Py.dict_getitem is_digit]. rewrite Hdig.
    unfold Py.dict_getitem. by rewrite Hget.
  - rewrite <- app_assoc. cbn [app]. rewrite <- app_assoc. cbn [app].
    rewrite (decode_step_numeric d body rest Hdig Hbody Hext).
    unfold Py.dict_getitem. by rewrite Hget.
  - rewrite <- app_assoc. cbn [app]. rewrite decode_step_extended.
    unfold Py.dict_getitem. by rewrite Hget.
Qed.

(** C1. A CSI sequence whose key is not in [CSI_TABLE] makes the
    iteration raise [KeyError]: nothing is appended for it, the keys
    appended before it stay in the buffer, and the loop ends there,
    whatever follows in the run. *)
Theorem unknown_csi_raises (data seq rest : pystr) (buffer buffer' : list token) :
  unknown_csi seq ->
  reaches data buffer (seq ++ rest) buffer' ->
  decode_step (seq ++ rest) = Raise KeyError /\
  decode data buffer = Some (buffer', Some KeyError).
Proof.
  intros Hseq Hreach. pose proof (unknown_csi_step seq rest Hseq) as Hstep.
  split; [done|]. rewrite (decode_reaches _ _ _ _ Hreach).
  apply decode_raise; [|done]. by destruct Hseq.
Qed.

(** C1, as stated, fails: after [ESC [ 9 9 ~] the character [a] of the
    same run is not decoded, although on its own it gives a token. *)
Lemma unknown_csi_not_resumed :
  unknown_csi [27; 91; 57; 57; 126] /\
  decode ([27; 91; 57; 57; 126] ++ [97]) [] = Some ([], Some KeyError) /\
  decode [97] [] = Some ([[97]], None) /\
  fst <$> decode ([27; 91; 57; 57; 126] ++ [97]) [] <> fst <$> decode [97] [].
Proof.
  split_and!; [|done..].
  by apply (unknown_numeric 57 [57]).
Qed.

Lemma unknown_csi_raises_witness :
  decode ([8] ++ [27; 91; 57; 57; 126] ++ [97]) [] =
    Some ([Keys.BACKSPACE], Some KeyError).
Proof.
  apply (unknown_csi_raises _ [27; 91; 57; 57; 126] [97] [] [Keys.BACKSPACE]).
  - by apply (unknown_numeric 57 [57]).
  - eapply reaches_step; [done | reflexivity | apply reaches_here].
Defined.

(** ** Round trip through the table encodings *)

Ltac each_encoding H :=
  vm_compute in H;
  repeat (apply elem_of_cons in H as [H|H]; [injection H as -> ->|]);
  [..|by apply elem_of_nil in H].

Lemma decode_step_esc (rest : pystr) :
  safe_head rest = true ->
  decode_step (27 :: rest) = Ok (Keys.ESC, rest).
Proof.
  destruct rest as [|c rest]; [done|]. cbn [safe_head].
  intros [H79 H91]%andb_true_iff.
  apply negb_true_iff in H79, H91. rewrite Z.eqb_sym in H79, H91.
  unfold decode_step, SS3, EXTENDED_ANSI_SEQ, CSI. cbn [Py.startswith].
  by rewrite H79, H91.
Qed.

Lemma encoding_step (e : pystr) (key : token) (rest : pystr) :
  (e, key) ∈ encodings -> safe_head rest = true ->
  decode_step (e ++ rest) = Ok (key, rest).
Proof.
  intros He Hrest. each_encoding He; try reflexivity.
  by apply decode_step_esc.
Qed.

Lemma encoding_head (e : pystr) (key : token) (rest : pystr) :
  (e, key) ∈ encodings -> e <> [] /\ safe_head (e ++ rest) = true.
Proof. intros He. each_encoding He; done. Qed.

Lemma encodings_safe_head (keys : list (pystr * token)) :
  Forall (fun ek => ek ∈ encodings) keys -> safe_head (concat keys.*1) = true.
Proof.
  destruct 1 as [|[e key] keys He _]; [done|].
  by apply (encoding_head e key).
Qed.

Lemma encodings_decode (keys : list (pystr * token)) (buffer : list token) :
  Forall (fun ek => ek ∈ encodings) keys ->
  decode (concat keys.*1) buffer = Some (buffer ++ keys.*2, None).
Proof.
  intros Hkeys. revert buffer.
  induction Hkeys as [|[e key] keys He Hkeys IH]; intros buffer.
  - by rewrite app_nil_r.
  - cbn [fmap list_fmap concat fst snd].
    pose proof (encodings_safe_head keys Hkeys) as Hsafe.
    pose proof (encoding_step e key _ He Hsafe) as Hstep.
    destruct (encoding_head e key (concat keys.*1) He) as [Hne _].
    apply (decode_cons _ _ _ buffer) in Hstep; [|by destruct e].
    by rewrite Hstep, IH, <- app_assoc.
Qed.

(** C3. Decoding the concatenation of table encodings gives their keys,
    in order; each encoding alone gives its one key; every key constant
    has an encoding; and [ESC] alone decodes to [Keys.ESC]. *)
Theorem encodings_roundtrip (keys : list (pystr * token)) (buffer : list token) :
  Forall (fun ek => ek ∈ encodings) keys ->
  decode (concat keys.*1) buffer = Some (buffer ++ keys.*2, None) /\
  Forall (fun ek => decode ek.1 [] = Some ([ek.2], None)) keys /\
  Forall (fun nk => nk.2 ∈ encodings.*2) Keys.constants /\
  decode [27] [] = Some ([Keys.ESC], None).
Proof.
  intros Hkeys. split_and!.
  - by apply encodings_decode.
  - eapply Forall_impl; [exact Hkeys|]. intros [e key] He.
    pose proof (encodings_decode [(e, key)] [] ltac:(by constructor)) as H.
    cbn [fmap list_fmap concat fst snd] in H. by rewrite app_nil_r in H.
  - unfold Keys.constants. repeat constructor; vm_compute; set_solver.
  - done.
Qed.

End DecodeLoop.

(** ** The decode tables *)

Section Tables.

Import Keys.

Lemma dict_get_elem_of {K V} `{EqDecision K} (table : list (K * V)) (k : K) (v : V) :
  NoDup table.*1 -> Py.dict_get table k = Some v <-> (k, v) ∈ table.
Proof.
  induction table as [|[k' v'] table IH]; simpl.
  - intros _. split; [done | by intros ?%elem_of_nil].
  - intros [Hk' Hnd]%NoDup_cons. rewrite elem_of_cons. case_decide as Hk.
    + subst k'. split; [intros [= ->]; by left|].
      intros [[= ->]|Hin]; [done|].
      destruct Hk'. apply list_elem_of_fmap. by exists (k, v).
    + rewrite (IH Hnd). split; [by right|]. by intros [[= -> ->]|].
Qed.

(** C2. The tables hold the mappings of the spec's table and no others,
    and the key constants are the 27 named keys, each with the value
    [KEY_] followed by its name. *)
Theorem decode_tables_exact :
  (forall c key, Py.dict_get KEYS_TABLE c = Some key <->
     (c, key) ∈ [ (8, BACKSPACE); (127, BACKSPACE); (9, TAB); (10, ENTER);
                  (27, ESC); (32, SPACE) ]) /\
  (forall c key, Py.dict_get SS3_MAPPING c = Some key <->
     (c, key) ∈ [ (80, F1); (81, F2); (82, F3); (83, F4) ]) /\
  (forall code key, Py.dict_get CSI_TABLE code = Some key <->
     (code, key) ∈
       [ (str "A", UP); (str "B", DOWN); (str "C", RIGHT); (str "D", LEFT);
         (str "F", END); (str "H", HOME); (str "Z", TAB) ] ++
       [ (str "1", HOME); (str "2", INSERT); (str "3", DELETE); (str "4", END);
         (str "5", PAGE_UP); (str "6", PAGE_DOWN) ] ++
       [ (str "15", F5); (str "17", F6); (str "18", F7); (str "19", F8);
         (str "20", F9); (str "21", F10); (str "23", F11); (str "24", F12) ]) /\
  constants.*1 ≡ₚ
    [ "PAGE_UP"; "PAGE_DOWN"; "UP"; "DOWN"; "LEFT"; "RIGHT"; "ESC"; "ENTER";
      "SPACE"; "BACKSPACE"; "TAB"; "INSERT"; "DELETE"; "END"; "HOME";
      "F1"; "F2"; "F3"; "F4"; "F5"; "F6"; "F7"; "F8"; "F9"; "F10"; "F11";
      "F12" ]%string /\
  NoDup constants.*1 /\ NoDup constants.*2 /\
  Forall (fun nk => nk.2 = str ("KEY_" ++ nk.1)) constants.
Proof.
  split_and!.
  - intros c key. rewrite dict_get_elem_of by compute_done.
    unfold KEYS_TABLE. rewrite !elem_of_cons. tauto.
  - intros c key. by rewrite dict_get_elem_of by compute_done.
  - intros code key. rewrite dict_get_elem_of by compute_done.
    unfold CSI_TABLE. rewrite !elem_of_app, !elem_of_cons. tauto.
  - unfold constants. cbn [fmap list_fmap fst]. do 4 f_equiv. apply Permutation_swap.
  - compute_done.
  - compute_done.
  - unfold constants. by repeat constructor.
Qed.

End Tables.

(** ** The methods *)

Section Methods.

Import Keyboard.

Lemma frame_refl (w : World) : frame w w.
Proof. done. Qed.

Lemma frame_trans (w1 w2 w3 : World) : frame w1 w2 -> frame w2 w3 -> frame w1 w3.
Proof.
  intros (Ho & Ha & Hs) (Ho' & Ha' & Hs'). split_and!; [congruence..|].
  intros h. by rewrite Hs', Hs.
Qed.

Lemma preserves_ret {A} (a : A) : preserves (ret a).
Proof. done. Qed.

Lemma preserves_raise {A} (e : exn) : preserves (@raise A e).
Proof. done. Qed.

Lemma preserves_get : preserves get.
Proof. done. Qed.

Lemma preserves_lift {A} (r : result A) : preserves (lift r).
Proof. by destruct r. Qed.

Lemma preserves_bind {A B} (m : M A) (f : A -> M B) :
  preserves m -> (forall a, preserves (f a)) -> preserves (bind m f).
Proof.
  intros Hm Hf w. unfold bind. specialize (Hm w).
  destruct (m w) as [a w1|e w1| |]; [|done..].
  specialize (Hf a w1). destruct (f a w1); try done; by eapply frame_trans.
Qed.

Lemma self_of_insert (w : World) (o : option nat) (a : Termios.attrs)
    (p : bytes) (ar : list bytes) (self h : nat) (i : instance) :
  self_of (mk_World o a p ar (<[self := i]> (heap w))) h =
    if decide (self = h) then i else self_of w h.
Proof.
  unfold self_of. cbn [heap]. case_decide as Hh.
  - subst. by rewrite lookup_total_insert_eq.
  - by rewrite lookup_total_insert_ne.
Qed.

Lemma preserves_set_input (p : bytes) (a : list bytes) : preserves (set_input p a).
Proof. done. Qed.

Lemma preserves_set_buffer (self : nat) (b : list token) : preserves (set_buffer self b).
Proof.
  intros w. unfold set_buffer, set_self. split_and!; [done..|].
  intros h. rewrite self_of_insert. by case_decide; subst.
Qed.

Ltac preserves_step :=
  lazymatch goal with
  | |- preserves (bind _ _) => apply preserves_bind; [|intros ?]
  | |- preserves (ret _) => apply preserves_ret
  | |- preserves (raise _) => apply preserves_raise
  | |- preserves get => apply preserves_get
  | |- preserves (lift _) => apply preserves_lift
  | |- preserves (set_input _ _) => apply preserves_set_input
  | |- preserves (set_buffer _ _) => apply preserves_set_buffer
  | |- preserves (if ?b then _ else _) => destruct b
  | |- preserves (match ?x with _ => _ end) => destruct x
  | |- preserves (fun _ => Timeout) => by intros ?
  end.

Lemma preserves_wait_readable : preserves Stdin.wait_readable.
Proof.
  intros w. unfold Stdin.wait_readable.
  destruct (pending w); [|done].
  by destruct (Stdin.next_burst (arrivals w)) as [[b a']|].
Qed.

Lemma preserves_os_read (n : nat) : preserves (Stdin.os_read n).
Proof.
  unfold Stdin.os_read. preserves_step; [apply preserves_wait_readable|].
  repeat preserves_step.
Qed.

Lemma preserves_has_data (wait : bool) : preserves (_has_data wait).
Proof.
  unfold _has_data, Stdin.select_readable. destruct wait.
  - preserves_step; [apply preserves_wait_readable | preserves_step].
  - repeat preserves_step.
Qed.

Lemma preserves_read_loop (fuel : nat) (data : bytes) : preserves (read_loop fuel data).
Proof.
  revert data. induction fuel as [|fuel IH]; intros data; cbn [read_loop].
  - preserves_step; [apply preserves_os_read|].
    preserves_step; [apply preserves_has_data|].
    repeat preserves_step.
  - preserves_step; [apply preserves_os_read|].
    preserves_step; [apply preserves_has_data|].
    preserves_step; [preserves_step | apply IH].
Qed.

Lemma preserves_read_into_buffer (self : nat) : preserves (_read_into_buffer self).
Proof.
  unfold _read_into_buffer.
  apply preserves_bind; [apply preserves_get | intros w0].
  apply preserves_bind; [apply preserves_read_loop | intros data].
  apply preserves_bind; [apply preserves_lift | intros s].
  apply preserves_bind; [apply preserves_get | intros w1].
  destruct (decode s _) as [[buf [e|]]|]; repeat preserves_step.
Qed.

Lemma preserves_popleft (self : nat) : preserves (popleft self).
Proof. unfold popleft. repeat preserves_step. Qed.

Lemma preserves_owner_is (o : option nat) : preserves (owner_is o).
Proof. unfold owner_is. repeat preserves_step. Qed.

Lemma preserves_getch (self : nat) (block : bool) : preserves (getch self block).
Proof.
  unfold getch.
  apply preserves_bind; [apply preserves_owner_is | intros _].
  apply preserves_bind; [apply preserves_get | intros w0].
  destruct (_ <? _)%nat.
  - apply preserves_bind; [apply preserves_popleft | intros key; apply preserves_ret].
  - apply preserves_bind; [apply preserves_has_data | intros ready].
    destruct (negb ready); [apply preserves_ret|].
    apply preserves_bind; [apply preserves_read_into_buffer | intros _].
    apply preserves_bind; [apply preserves_popleft | intros key; apply preserves_ret].
Qed.

Lemma preserves_clear (self : nat) : preserves (clear self).
Proof.
  unfold clear.
  apply preserves_bind; [apply preserves_has_data | intros ready].
  apply preserves_bind; [|intros _; apply preserves_set_buffer].
  destruct ready; [apply preserves_read_into_buffer | apply preserves_ret].
Qed.

(** *** The terminal mode guard *)

Lemma enter_unowned (self : nat) (w : World) :
  owner w = None ->
  __enter__ self w =
    Returns self
      (mk_World (Some self) (Termios.cbreak (tty_attrs w)) [] (arrivals w)
         (<[self := mk_instance (_buffer (self_of w self)) (Some (tty_attrs w))]>
            (heap w))).
Proof.
  intros Ho. unfold __enter__, owner_is, bind, get. by rewrite Ho.
Qed.

Lemma enter_owned (self : nat) (w : World) :
  owner w <> None -> __enter__ self w = Raises AssertionError w.
Proof.
  intros Ho. unfold __enter__, owner_is, bind, get.
  by rewrite bool_decide_false.
Qed.

Lemma exit_not_owner (self : nat) (w : World) :
  owner w <> Some self -> __exit__ self w = Raises AssertionError w.
Proof.
  intros Ho. unfold __exit__, owner_is, bind, get.
  by rewrite bool_decide_false.
Qed.

Lemma exit_owner (self : nat) (w : World) (a : Termios.attrs) :
  owner w = Some self -> _original_settings (self_of w self) = Some a ->
  __exit__ self w =
    Returns tt
      (mk_World None a (pending w) (arrivals w)
         (<[self := mk_instance (_buffer (self_of w self)) None]> (heap w))).
Proof.
  intros Ho Ha. unfold __exit__, owner_is, bind, get.
  rewrite bool_decide_true by done. cbn. by rewrite Ha.
Qed.

Lemma cbreak_is_cbreak (a : Termios.attrs) :
  length (Termios.cc a) = Termios.NCCS -> Termios.is_cbreak (Termios.cbreak a).
Proof.
  intros Hcc. unfold Termios.is_cbreak, Termios.cbreak. cbn [Termios.lflag Termios.cc].
  rewrite !Z.land_spec, !Z.lnot_spec by lia. split_and!.
  - apply andb_false_r.
  - apply andb_false_r.
  - rewrite list_lookup_insert_ne by done.
    apply list_lookup_insert_eq. rewrite Hcc. unfold Termios.VMIN, Termios.NCCS. lia.
  - apply list_lookup_insert_eq. rewrite length_insert, Hcc.
    unfold Termios.VTIME, Termios.NCCS. lia.
Qed.

(** C5. [__enter__] with the owner slot taken raises [AssertionError]
    and leaves the whole state as it was; with the slot free it saves the
    terminal attributes in [_original_settings], puts the terminal in
    cbreak mode and makes the caller the owner. *)
Theorem enter_spec (self : nat) (w : World) :
  length (Termios.cc (tty_attrs w)) = Termios.NCCS ->
  match owner w with
  | Some _ => __enter__ self w = Raises AssertionError w
  | None =>
    exists w',
      __enter__ self w = Returns self w' /\
      owner w' = Some self /\
      _original_settings (self_of w' self) = Some (tty_attrs w) /\
      tty_attrs w' = Termios.cbreak (tty_attrs w) /\
      Termios.is_cbreak (tty_attrs w')
  end.
Proof.
  intros Hcc. destruct (owner w) as [o|] eqn:Ho.
  - apply enter_owned. by rewrite Ho.
  - eexists. split; [by apply enter_unowned|]. cbn [owner tty_attrs].
    split_and!; [done| |done|by apply cbreak_is_cbreak].
    rewrite self_of_insert. by case_decide.
Qed.

Lemma after_frame (self : nat) (c : call) (w w1 : World) :
  owner w = Some self -> c <> Exit self -> after c w w1 -> frame w w1.
Proof.
  intros Ho Hc Hafter. destruct c as [h|h|h block|h]; cbn [after] in Hafter.
  - rewrite enter_owned in Hafter by (by rewrite Ho).
    by destruct Hafter as [[r [=]]|[e [= _ ->]]].
  - rewrite exit_not_owner in Hafter by (rewrite Ho; congruence).
    by destruct Hafter as [[r [=]]|[e [= _ ->]]].
  - pose proof (preserves_getch h block w) as Hp.
    by destruct Hafter as [[r Hr]|[e Hr]]; rewrite Hr in Hp.
  - pose proof (preserves_clear h w) as Hp.
    by destruct Hafter as [[r Hr]|[e Hr]]; rewrite Hr in Hp.
Qed.

Lemma during_frame (self : nat) (w w' : World) :
  owner w = Some self -> during self w w' -> frame w w'.
Proof.
  intros Ho Hd. induction Hd as [w|w c w1 w' Hc Hafter _ IH]; [done|].
  pose proof (after_frame self c w w1 Ho Hc Hafter) as Hf.
  eapply frame_trans; [done|]. apply IH. destruct Hf as [-> _]. done.
Qed.

(** C6. [__exit__] by an instance that is not the owner raises
    [AssertionError] and changes nothing.  By the owner, whatever calls
    were made since its [__enter__], it puts back the terminal attributes
    as they were before that [__enter__] and frees the owner slot. *)
Theorem exit_spec (self : nat) (w0 w1 w2 : World) :
  __enter__ self w0 = Returns self w1 ->
  during self w1 w2 ->
  (exists w3,
     __exit__ self w2 = Returns tt w3 /\
     tty_attrs w3 = tty_attrs w0 /\ owner w3 = None /\
     _original_settings (self_of w3 self) = None /\
     pending w3 = pending w2 /\ arrivals w3 = arrivals w2) /\
  (forall h, h <> self -> __exit__ h w2 = Raises AssertionError w2) /\
  (forall h w, owner w <> Some h -> __exit__ h w = Raises AssertionError w).
Proof.
  intros Henter Hduring.
  assert (Ho0 : owner w0 = None).
  { destruct (owner w0) eqn:Ho; [|done].
    rewrite enter_owned in Henter by (by rewrite Ho). done. }
  rewrite (enter_unowned _ _ Ho0) in Henter. injection Henter as <-.
  apply during_frame in Hduring as (Ho & Ha & Hs); [|done].
  cbn [owner tty_attrs] in Ho, Ha. specialize (Hs self).
  rewrite self_of_insert in Hs. rewrite decide_True in Hs by done.
  cbn [_original_settings] in Hs.
  split_and!.
  - eexists. split; [by apply exit_owner|]. cbn. split_and!; [done..| |done|done].
    rewrite self_of_insert. by case_decide.
  - intros h Hh. apply exit_not_owner. rewrite Ho. congruence.
  - intros h w. apply exit_not_owner.
Qed.

(** *** Reading and the token buffer *)

Lemma with_input_id (w : World) : with_input w (pending w) (arrivals w) = w.
Proof. by destruct w. Qed.

Lemma self_of_with_input (w : World) (p : bytes) (a : list bytes) (self : nat) :
  self_of (with_input w p a) self = self_of w self.
Proof. done. Qed.

Lemma with_input_buffer_with_input (w : World) (p p' : bytes) (a a' : list bytes)
    (self : nat) (b : list token) :
  with_input_buffer (with_input w p a) p' a' self b = with_input_buffer w p' a' self b.
Proof. done. Qed.

Lemma has_data_ready (wait : bool) (w : World) :
  _has_data wait w =
    match ready wait w with
    | Some (p, a) => Returns true (with_input w p a)
    | None => if wait then Blocks else Returns false w
    end.
Proof.
  unfold _has_data, Stdin.select_readable, ready, Stdin.wait_readable, bind, get, ret.
  destruct wait, (pending w) as [|b p] eqn:Hp; rewrite ?Hp; try done.
  - by destruct (Stdin.next_burst (arrivals w)) as [[b a']|].
  - by rewrite <- Hp, with_input_id.
  - by rewrite <- Hp, with_input_id.
Qed.

Lemma os_read_pending (n : nat) (w : World) :
  pending w <> [] ->
  Stdin.os_read n w =
    Returns (take n (pending w)) (with_input w (drop n (pending w)) (arrivals w)).
Proof.
  intros Hp. unfold Stdin.os_read, Stdin.wait_readable, bind.
  destruct (pending w) as [|b p] eqn:Hpw; [done|].
  unfold get, set_input, ret, with_input. by rewrite Hpw.
Qed.

Lemma read_loop_all (fuel : nat) (data : bytes) (w : World) :
  pending w <> [] -> (length (pending w) <= S fuel)%nat ->
  read_loop fuel data w = Returns (data ++ pending w) (with_input w [] (arrivals w)).
Proof.
  revert data w. induction fuel as [|fuel IH]; intros data w Hp Hlen.
  all: cbn [read_loop]; unfold bind at 1; rewrite (os_read_pending _ _ Hp).
  all: unfold bind at 1; rewrite has_data_ready; unfold ready.
  all: cbn [pending arrivals with_input].
  all: pose proof (take_drop BUFSIZE (pending w)) as Htd.
  all: pose proof (length_drop (pending w) BUFSIZE) as Hld.
  all: destruct (drop BUFSIZE (pending w)) as [|b rest] eqn:Hdrop; cbn [negb].
  - rewrite app_nil_r in Htd. by rewrite Htd.
  - unfold BUFSIZE in Hld. cbn [length] in Hld. lia.
  - rewrite app_nil_r in Htd. by rewrite Htd.
  - rewrite IH.
    + cbn [pending arrivals with_input owner tty_attrs heap].
      by rewrite <- app_assoc, Htd.
    + done.
    + cbn [pending with_input]. unfold BUFSIZE in Hld. cbn [length] in Hld |- *. lia.
Qed.

Lemma read_fuel_enough (w : World) :
  pending w <> [] -> (length (pending w) <= S (read_fuel w))%nat.
Proof. unfold read_fuel. lia. Qed.

Lemma read_into_buffer_spec (self : nat) (w : World) :
  pending w <> [] ->
  _read_into_buffer self w =
    match Utf8.decode (pending w) with
    | Raise e => Raises e (with_input w [] (arrivals w))
    | Ok data =>
      match decode data (_buffer (self_of w self)) with
      | Some (buffer, None) => Returns tt (with_input_buffer w [] (arrivals w) self buffer)
      | Some (buffer, Some e) => Raises e (with_input_buffer w [] (arrivals w) self buffer)
      | None => Timeout
      end
    end.
Proof.
  intros Hp. unfold _read_into_buffer. unfold bind at 1, get at 1.
  unfold bind at 1. rewrite (read_loop_all _ _ _ Hp (read_fuel_enough _ Hp)).
  cbn [app]. unfold bind at 1.
  destruct (Utf8.decode (pending w)) as [data|e]; [|done].
  cbn [lift ret]. unfold bind at 1, get.
  change (self_of (with_input w [] (arrivals w)) self) with (self_of w self).
  by destruct (decode data (_buffer (self_of w self))) as [[buffer [e|]]|].
Qed.

Lemma utf8_decode_nonempty (bs : bytes) (data : pystr) :
  Utf8.decode bs = Ok data -> bs <> [] -> data <> [].
Proof.
  destruct bs as [|b0 bs]; [done|]. intros Hdec _. cbn [Utf8.decode] in Hdec.
  repeat case_match; try done;
    match goal with
    | H : _ <$> ?r = Ok _ |- _ => destruct r; [by injection H as <-|done]
    end.
Qed.

Lemma decode_loop_extends (fuel : nat) (data : pystr) (buffer keys : list token)
    (e : option exn) :
  decode_loop fuel data buffer = Some (keys, e) ->
  exists more, keys = buffer ++ more /\ (data <> [] -> e = None -> more <> []).
Proof.
  revert data buffer. induction fuel as [|fuel IH]; intros data buffer.
  - destruct data; [|done]. intros [= <- <-]. exists []. by rewrite app_nil_r.
  - destruct data as [|c data]; cbn [decode_loop].
    { intros [= <- <-]. exists []. by rewrite app_nil_r. }
    destruct (decode_step (c :: data)) as [[key data']|e'].
    + intros (more & -> & _)%IH. exists (key :: more).
      by rewrite <- app_assoc.
    + intros [= <- <-]. exists []. by rewrite app_nil_r.
Qed.

Lemma popleft_cons (self : nat) (w : World) (key : token) (rest : list token) :
  _buffer (self_of w self) = key :: rest ->
  popleft self w =
    Returns key (with_input_buffer w (pending w) (arrivals w) self rest).
Proof. intros Hb. unfold popleft, bind, get. by rewrite Hb. Qed.

Lemma popleft_nil (self : nat) (w : World) :
  _buffer (self_of w self) = [] -> popleft self w = Raises IndexError w.
Proof. intros Hb. unfold popleft, bind, get. by rewrite Hb. Qed.

Lemma self_of_with_input_buffer (w : World) (p : bytes) (a : list bytes)
    (self : nat) (b : list token) :
  self_of (with_input_buffer w p a self b) self =
    mk_instance b (_original_settings (self_of w self)).
Proof. unfold with_input_buffer. rewrite self_of_insert. by case_decide. Qed.

Lemma bind_returns {A B} (m : M A) (f : A -> M B) (w w' : World) (a : A) :
  m w = Returns a w' -> bind m f w = f a w'.
Proof. intros Hm. unfold bind. by rewrite Hm. Qed.

Lemma owner_is_true (o : option nat) (w : World) :
  owner w = o -> owner_is o w = Returns tt w.
Proof. intros Ho. unfold owner_is, bind, get. by rewrite bool_decide_true. Qed.

Lemma owner_is_false (o : option nat) (w : World) :
  owner w <> o -> owner_is o w = Raises AssertionError w.
Proof. intros Ho. unfold owner_is, bind, get. by rewrite bool_decide_false. Qed.

Lemma ready_nonempty (wait : bool) (w : World) (p : bytes) (a : list bytes) :
  ready wait w = Some (p, a) -> p <> [].
Proof.
  unfold ready. destruct (pending w) as [|b bs] eqn:Hp.
  - destruct wait; [|done]. induction (arrivals w) as [|[|c cs] ar IH]; cbn; [done..|].
    by intros [= <- _].
  - by intros [= <- _].
Qed.


Lemma getch_buffered (self : nat) (block : bool) (w : World)
    (key : token) (rest : list token) :
  owner w = Some self -> _buffer (self_of w self) = key :: rest ->
  getch self block w =
    Returns (Some key) (with_input_buffer w (pending w) (arrivals w) self rest).
Proof.
  intros Ho Hb. unfold getch.
  rewrite (bind_returns _ _ _ _ _ (owner_is_true _ _ Ho)).
  rewrite (bind_returns get _ w w w eq_refl), Hb. cbn [length Nat.ltb Nat.leb].
  by rewrite (bind_returns _ _ _ _ _ (popleft_cons _ _ _ _ Hb)).
Qed.

Lemma getch_empty (self : nat) (block : bool) (w : World) :
  owner w = Some self -> _buffer (self_of w self) = [] ->
  getch self block w =
    match ready block w with
    | None => if block then Blocks else Returns None w
    | Some (p, a) =>
      bind (_read_into_buffer self)
        (fun _ => bind (popleft self) (fun key => ret (Some key)))
        (with_input w p a)
    end.
Proof.
  intros Ho Hb. unfold getch.
  rewrite (bind_returns _ _ _ _ _ (owner_is_true _ _ Ho)).
  rewrite (bind_returns get _ w w w eq_refl), Hb. cbn [length Nat.ltb Nat.leb].
  unfold bind at 1. rewrite has_data_ready.
  by destruct (ready block w) as [[p a]|], block.
Qed.




(** Read from the terminal, [ESC [ 1 ; m t] decodes the same for any
    two ASCII modifier bytes. *)
Lemma utf8_decode_ascii_prefix (m : Z) (bs : bytes) :
  Utf8.in_range 0 0x7F m = true ->
  Utf8.decode (EXTENDED_ANSI_SEQ ++ m :: bs) =
    (fun data => EXTENDED_ANSI_SEQ ++ m :: data) <$> Utf8.decode bs.
Proof.
  intros Hm. unfold EXTENDED_ANSI_SEQ. cbn [app Utf8.decode].
  change (Utf8.in_range 0 127 27) with true. change (Utf8.in_range 0 127 91) with true.
  change (Utf8.in_range 0 127 49) with true. change (Utf8.in_range 0 127 59) with true.
  cbv iota. rewrite Hm. by destruct (Utf8.decode bs).
Qed.

Lemma read_extended_csi_ascii_modifier (self : nat) (w : World) (m m' t : Z) (bs : bytes) :
  Utf8.in_range 0 0x7F m = true -> Utf8.in_range 0 0x7F m' = true ->
  _read_into_buffer self (with_input w (EXTENDED_ANSI_SEQ ++ m :: t :: bs) (arrivals w)) =
  _read_into_buffer self (with_input w (EXTENDED_ANSI_SEQ ++ m' :: t :: bs) (arrivals w)).
Proof.
  intros Hm Hm'. rewrite !read_into_buffer_spec by done.
  cbn [pending arrivals with_input].
  rewrite !utf8_decode_ascii_prefix by done.
  rewrite !self_of_with_input.
  change (with_input_buffer (with_input w (EXTENDED_ANSI_SEQ ++ m :: t :: bs) (arrivals w)))
    with (with_input_buffer w).
  change (with_input_buffer (with_input w (EXTENDED_ANSI_SEQ ++ m' :: t :: bs) (arrivals w)))
    with (with_input_buffer w).
  destruct (Utf8.decode (t :: bs)) as [[|c data]|e] eqn:Hdec; cbn [fmap result_fmap]; [| |done].
  - by apply utf8_decode_nonempty in Hdec.
  - pose proof (decode_step_extended m c data) as Hs.
    pose proof (decode_step_extended m' c data) as Hs'.
    destruct (Py.dict_getitem Keys.CSI_TABLE [c]) as [key|e].
    + apply (decode_cons _ data key (_buffer (self_of w self))) in Hs; [|done].
      apply (decode_cons _ data key (_buffer (self_of w self))) in Hs'; [|done].
      unfold EXTENDED_ANSI_SEQ in *. cbn [app] in *. by rewrite Hs, Hs'.
    + apply (decode_raise _ e (_buffer (self_of w self))) in Hs; [|done].
      apply (decode_raise _ e (_buffer (self_of w self))) in Hs'; [|done].
      unfold EXTENDED_ANSI_SEQ in *. cbn [app] in *. by rewrite Hs, Hs'.
Qed.

Lemma getch_not_owner (self : nat) (block : bool) (w : World) :
  owner w <> Some self -> getch self block w = Raises AssertionError w.
Proof.
  intros Ho. unfold getch. unfold bind at 1. by rewrite owner_is_false.
Qed.

(** [getch] always ends, unless it waits for input that never comes. *)
Lemma getch_ends (self : nat) (block : bool) (w : World) :
  getch self block w <> Timeout.
Proof.
  destruct (decide (owner w = Some self)) as [Ho|Ho];
    [|by rewrite getch_not_owner].
  destruct (_buffer (self_of w self)) as [|key rest] eqn:Hb;
    [|by rewrite (getch_buffered _ _ _ _ _ Ho Hb)].
  rewrite getch_empty by done.
  destruct (ready block w) as [[p a]|] eqn:Hr; [|by destruct block].
  unfold bind at 1. rewrite read_into_buffer_spec by (by eapply ready_nonempty).
  cbn [pending with_input]. destruct (Utf8.decode p) as [data|e]; [|done].
  destruct (decode_loop_enough (length data) data
              (_buffer (self_of (with_input w p a) self)) (Nat.le_refl _))
    as [_ [[buffer e] He]].
  rewrite He. destruct e; [done|].
  match goal with
  | |- bind (popleft self) _ ?w1 <> _ =>
      destruct (_buffer (self_of w1 self)) as [|k ks] eqn:Hk;
        [unfold bind; by rewrite popleft_nil
        |by rewrite (bind_returns _ _ _ _ _ (popleft_cons _ _ _ _ Hk))]
  end.
Qed.

Lemma clear_outcome (self : nat) (w : World) :
  clear self w =
    match pending w with
    | [] => Returns tt (with_input_buffer w [] (arrivals w) self [])
    | _ :: _ =>
      match Utf8.decode (pending w) with
      | Raise e => Raises e (with_input w [] (arrivals w))
      | Ok data =>
        match decode data (_buffer (self_of w self)) with
        | Some (_, None) => Returns tt (with_input_buffer w [] (arrivals w) self [])
        | Some (buffer, Some e) =>
          Raises e (with_input_buffer w [] (arrivals w) self buffer)
        | None => Timeout
        end
      end
    end.
Proof.
  unfold clear. unfold bind at 1. rewrite has_data_ready. unfold ready.
  destruct (pending w) as [|b bs] eqn:Hp.
  - unfold bind, ret, set_buffer, set_self, with_input_buffer. by rewrite Hp.
  - rewrite <- Hp, with_input_id. unfold bind at 1.
    rewrite read_into_buffer_spec by (by rewrite Hp).
    destruct (Utf8.decode (pending w)) as [data|e]; [|done].
    destruct (decode data _) as [[buffer [e|]]|]; [done| |done].
    unfold set_buffer, set_self, with_input_buffer.
    cbn [owner tty_attrs heap pending arrivals].
    rewrite insert_insert_eq. do 4 f_equal.
    by rewrite !self_of_insert, decide_True.
Qed.



End Methods.

(** ** The statements at work on concrete runs *)

Section Runs.

Import Keyboard.

Lemma encodings_roundtrip_witness :
  decode ([27] ++ [27; 91; 65] ++ [27; 91; 49; 53; 126] ++ []) [] =
    Some ([Keys.ESC; Keys.UP; Keys.F5], None).
Proof.
  apply (encodings_roundtrip
           [([27], Keys.ESC); ([27; 91; 65], Keys.UP);
            ([27; 91; 49; 53; 126], Keys.F5)] []).
  repeat constructor; apply (bool_decide_unpack _); vm_compute; reflexivity.
Defined.

Lemma enter_spec_witness :
  exists w',
    __enter__ 0 (world0 None [97]) = Returns 0%nat w' /\
    owner w' = Some 0%nat /\
    _original_settings (self_of w' 0) = Some attrs0 /\
    tty_attrs w' = Termios.cbreak attrs0 /\
    Termios.is_cbreak (tty_attrs w').
Proof. apply (enter_spec 0 (world0 None [97])). reflexivity. Defined.

Lemma exit_spec_witness :
  exists w3,
    __exit__ 0 world1 = Returns tt w3 /\
    tty_attrs w3 = attrs0 /\ owner w3 = None.
Proof.
  edestruct (exit_spec 0 (world0 None [97])) as [(w3 & H3 & Ha & Ho & _) _].
  - reflexivity.
  - eapply (during_call _ _ (Getch 0 false)); [done| |apply during_refl].
    left. exists None. reflexivity.
  - exists w3. split_and!; [exact H3 | exact Ha | exact Ho].
Defined.


Lemma decode_tables_exact_witness :
  Py.dict_get Keys.KEYS_TABLE 127 = Some Keys.BACKSPACE.
Proof.
  apply decode_tables_exact. apply elem_of_cons. right. apply elem_of_cons. by left.
Defined.

End Runs.

(** * Further properties of [engine/keyboard.py] *)

Section KeyboardMore.

Import Keyboard.

Lemma next_burst_length (a a' : list bytes) (b : bytes) :
  Stdin.next_burst a = Some (b, a') -> (length b <= length (concat a))%nat.
Proof.
  induction a as [|[|c cs] a IH]; cbn [Stdin.next_burst]; [done| |].
  - intros H. by apply IH.
  - intros [= <- <-]. cbn [concat]. rewrite length_app. lia.
Qed.

Lemma read_loop_wakes (fuel : nat) (data : bytes) (w : World) (b : bytes) (a' : list bytes) :
  pending w = [] -> Stdin.next_burst (arrivals w) = Some (b, a') ->
  read_loop fuel data w = read_loop fuel data (with_input w b a').
Proof.
  intros Hp Hb.
  assert (Hne : b <> []).
  { apply (ready_nonempty true w b a'). unfold ready. by rewrite Hp. }
  assert (Hread : Stdin.os_read BUFSIZE w = Stdin.os_read BUFSIZE (with_input w b a')).
  { rewrite (os_read_pending _ (with_input w b a')) by done.
    unfold Stdin.os_read, Stdin.wait_readable, bind. by rewrite Hp, Hb. }
  destruct fuel; cbn [read_loop]; unfold bind at 1 3; by rewrite Hread.
Qed.

(** X1. The read loop at the head of [_read_into_buffer] takes every
    byte that is readable, however many reads of 1024 bytes that needs,
    and leaves later input alone; with nothing readable its first read
    waits for the next burst and takes that. *)
Theorem read_loop_drains (w : World) :
  read_loop (read_fuel w) [] w =
    match ready true w with
    | Some (p, a) => Returns p (with_input w [] a)
    | None => Blocks
    end.
Proof.
  unfold ready. destruct (pending w) as [|c p] eqn:Hp.
  - destruct (Stdin.next_burst (arrivals w)) as [[b a']|] eqn:Hb.
    + rewrite (read_loop_wakes _ _ _ _ _ Hp Hb).
      assert (Hne : b <> []).
      { apply (ready_nonempty true w b a'). unfold ready. by rewrite Hp. }
      rewrite read_loop_all; [done|done|].
      cbn [pending with_input]. unfold read_fuel. rewrite Hp.
      apply next_burst_length in Hb. cbn [length]. lia.
    + destruct (read_fuel w); cbn [read_loop];
        unfold bind, Stdin.os_read, Stdin.wait_readable, bind; cbv beta;
        by rewrite Hp, Hb.
  - rewrite read_loop_all, Hp; [done|by rewrite Hp|].
    apply read_fuel_enough. by rewrite Hp.
Qed.

Lemma utf8_decode_raises (bs : bytes) (e : exn) :
  Utf8.decode bs = Raise e -> e = UnicodeDecodeError.
Proof.
  remember (length bs) as n eqn:Hn. revert bs Hn.
  induction n as [n IH] using lt_wf_ind. intros bs -> Hdec.
  destruct bs as [|b0 bs]; [done|]. cbn [Utf8.decode] in Hdec.
  repeat case_match; try congruence;
    match goal with
    | H : _ <$> Utf8.decode ?t = Raise _ |- _ =>
        destruct (Utf8.decode t) eqn:Ht; [done|];
        injection H as <-; eapply (IH (length t)); [|done|exact Ht];
        subst; cbn [length]; lia
    end.
Qed.

(** X2. Bytes that are not valid UTF-8 make [_read_into_buffer] raise
    [UnicodeDecodeError]: all the bytes read are lost, the well-formed
    ones with them, and the buffer is as it was. *)
Theorem read_into_buffer_invalid_utf8 (self : nat) (w : World) (e : exn) :
  pending w <> [] -> Utf8.decode (pending w) = Raise e ->
  _read_into_buffer self w = Raises UnicodeDecodeError (with_input w [] (arrivals w)) /\
  _buffer (self_of (with_input w [] (arrivals w)) self) = _buffer (self_of w self).
Proof.
  intros Hp Hdec. rewrite read_into_buffer_spec, Hdec by done.
  by rewrite (utf8_decode_raises _ _ Hdec).
Qed.

Lemma read_into_buffer_invalid_utf8_witness :
  _read_into_buffer 0 (world0 (Some 0%nat) [97; 255; 98]) =
    Raises UnicodeDecodeError (with_input (world0 (Some 0%nat) [97; 255; 98]) [] []).
Proof.
  apply (read_into_buffer_invalid_utf8 0 (world0 (Some 0%nat) [97; 255; 98])
           UnicodeDecodeError); [done | reflexivity].
Defined.

(** X3. [getch] by an instance that does not hold the keyboard raises
    [AssertionError] before anything else: no token is popped, though
    its buffer may hold some, and no input is polled or read. *)
Theorem getch_requires_owner (self : nat) (block : bool) (w : World) :
  owner w <> Some self ->
  getch self block w = Raises AssertionError w.
Proof.
  intros Ho. unfold getch. unfold bind at 1.
  unfold owner_is, bind, get. by rewrite bool_decide_false.
Qed.

Lemma getch_requires_owner_witness :
  getch 1 true (world0 (Some 0%nat) [97]) =
    Raises AssertionError (world0 (Some 0%nat) [97]).
Proof. apply getch_requires_owner. done. Defined.

(** X4. [clear] checks no ownership, and the terminal input is shared:
    a [clear] that returns, by any instance, takes the readable bytes
    away from every instance, and leaves the buffers of the other
    instances as they were. *)
Theorem clear_other_instance (self h : nat) (w w' : World) :
  h <> self -> clear self w = Returns tt w' ->
  pending w' = [] /\ owner w' = owner w /\
  _buffer (self_of w' h) = _buffer (self_of w h).
Proof.
  intros Hh Hclear. rewrite clear_outcome in Hclear.
  assert (Hw : w' = with_input_buffer w [] (arrivals w) self []).
  { destruct (pending w); [by injection Hclear|].
    destruct (Utf8.decode _); [|done].
    destruct (decode _ _) as [[buffer [e|]]|]; [done| |done]. by injection Hclear. }
  subst w'. split_and!; [done..|].
  unfold with_input_buffer. rewrite self_of_insert. by rewrite decide_False.
Qed.

Lemma clear_other_instance_witness :
  pending (with_input_buffer (world0 (Some 0%nat) [97]) [] [] 1 []) = [] /\
  owner (with_input_buffer (world0 (Some 0%nat) [97]) [] [] 1 []) = Some 0%nat /\
  _buffer (self_of (with_input_buffer (world0 (Some 0%nat) [97]) [] [] 1 []) 0) =
    _buffer (self_of (world0 (Some 0%nat) [97]) 0).
Proof.
  apply (clear_other_instance 1 0 (world0 (Some 0%nat) [97])); [done | reflexivity].
Defined.

Lemma getch_n_pops (self : nat) (block : bool) (keys rest : list token) (w : World) :
  owner w = Some self -> _buffer (self_of w self) = keys ++ rest ->
  exists w',
    getch_n self block (length keys) w = Returns (Some <$> keys) w' /\
    _buffer (self_of w' self) = rest /\
    pending w' = pending w /\ arrivals w' = arrivals w /\
    owner w' = owner w /\ tty_attrs w' = tty_attrs w.
Proof.
  revert w. induction keys as [|key keys IH]; intros w Ho Hb.
  - by exists w.
  - cbn [length getch_n app] in *.
    rewrite (bind_returns _ _ _ _ _ (getch_buffered _ block _ _ _ Ho Hb)).
    destruct (IH (with_input_buffer w (pending w) (arrivals w) self (keys ++ rest)))
      as (w' & Hn & Hb' & Hp & Ha & Ho' & Ht).
    { done. }
    { by rewrite self_of_with_input_buffer. }
    exists w'. by rewrite (bind_returns _ _ _ _ _ Hn).
Qed.

(** X5. The buffer is a queue: as many calls of [getch] as there are
    buffered tokens return them in the order they were buffered, and
    none of these calls polls or reads the terminal. *)
Theorem getch_n_fifo (self : nat) (block : bool) (keys rest : list token) (w : World) :
  owner w = Some self -> _buffer (self_of w self) = keys ++ rest ->
  exists w',
    getch_n self block (length keys) w = Returns (Some <$> keys) w' /\
    _buffer (self_of w' self) = rest /\
    pending w' = pending w /\ arrivals w' = arrivals w.
Proof.
  intros Ho Hb.
  destruct (getch_n_pops self block keys rest w Ho Hb) as (w' & Hn & Hb' & Hp & Ha & _).
  by exists w'.
Qed.

Lemma getch_n_fifo_witness :
  exists w',
    getch_n 0 false 2
      (with_input_buffer (world0 (Some 0%nat) [97]) [97] [] 0
         [Keys.UP; Keys.DOWN; Keys.F1]) =
      Returns [Some Keys.UP; Some Keys.DOWN] w' /\
    _buffer (self_of w' 0) = [Keys.F1] /\
    pending w' = [97] /\ arrivals w' = [].
Proof.
  apply (getch_n_fifo 0 false [Keys.UP; Keys.DOWN] [Keys.F1]); reflexivity.
Defined.

Lemma getch_ready_returns (self : nat) (block : bool) (w : World)
    (p : bytes) (a : list bytes) (data : pystr) (key : token) (rest : list token) :
  owner w = Some self -> _buffer (self_of w self) = [] ->
  ready block w = Some (p, a) -> Utf8.decode p = Ok data ->
  decode data [] = Some (key :: rest, None) ->
  getch self block w = Returns (Some key) (with_input_buffer w [] a self rest).
Proof.
  intros Ho Hb Hr Hdec Hkeys.
  pose proof (ready_nonempty _ _ _ _ Hr) as Hp.
  rewrite getch_empty, Hr by done.
  unfold bind at 1. rewrite read_into_buffer_spec by done.
  cbn [pending arrivals with_input]. rewrite Hdec.
  rewrite self_of_with_input, Hb, Hkeys.
  erewrite bind_returns; [|apply popleft_cons; by rewrite self_of_with_input_buffer].
  unfold ret, with_input_buffer, with_input. cbn [owner tty_attrs heap pending arrivals].
  rewrite insert_insert_eq. do 4 f_equal.
  by rewrite !self_of_insert, decide_True.
Qed.

(** X6. One burst of keys is read once and handed out key by key: with
    an empty buffer and input that decodes without error to [keys], as
    many calls of [getch] as there are keys return them in order, and
    leave the buffer empty and the burst consumed. *)
Theorem getch_n_burst (self : nat) (block : bool) (w : World)
    (p : bytes) (a : list bytes) (data : pystr) (keys : list token) :
  owner w = Some self -> _buffer (self_of w self) = [] ->
  ready block w = Some (p, a) -> Utf8.decode p = Ok data ->
  decode data [] = Some (keys, None) ->
  exists w',
    getch_n self block (length keys) w = Returns (Some <$> keys) w' /\
    _buffer (self_of w' self) = [] /\ pending w' = [] /\ arrivals w' = a.
Proof.
  intros Ho Hb Hr Hdec Hkeys.
  destruct keys as [|key rest].
  { destruct (decode_loop_extends _ _ _ _ _ Hkeys) as (more & Hmore & Hne).
    destruct more; [|done]. destruct Hne; [|done..].
    eapply utf8_decode_nonempty; [done|]. by eapply ready_nonempty. }
  cbn [length getch_n].
  rewrite (bind_returns _ _ _ _ _
             (getch_ready_returns _ _ _ _ _ _ _ _ Ho Hb Hr Hdec Hkeys)).
  destruct (getch_n_pops self block rest [] (with_input_buffer w [] a self rest))
    as (w' & Hn & Hb' & Hp & Ha & _).
  { done. }
  { by rewrite self_of_with_input_buffer, app_nil_r. }
  exists w'. by rewrite (bind_returns _ _ _ _ _ Hn).
Qed.

Lemma getch_n_burst_witness :
  exists w',
    getch_n 0 true 3 (world0 (Some 0%nat) [27; 91; 65; 97; 27; 79; 80]) =
      Returns [Some Keys.UP; Some [97]; Some Keys.F1] w' /\
    _buffer (self_of w' 0) = [] /\ pending w' = [] /\ arrivals w' = [].
Proof.
  apply (getch_n_burst 0 true (world0 (Some 0%nat) [27; 91; 65; 97; 27; 79; 80])
           [27; 91; 65; 97; 27; 79; 80] [] [27; 91; 65; 97; 27; 79; 80]
           [Keys.UP; [97]; Keys.F1]); reflexivity.
Defined.

(** *** More on the decode loop *)

Lemma decode_loop_buffer (fuel : nat) (data : pystr) (b1 b2 keys : list token)
    (e : option exn) :
  decode_loop fuel data b2 = Some (keys, e) ->
  decode_loop fuel data (b1 ++ b2) = Some (b1 ++ keys, e).
Proof.
  revert data b2. induction fuel as [|fuel IH]; intros data b2.
  - destruct data; [|done]. by intros [= <- <-].
  - destruct data as [|c data]; cbn [decode_loop]; [by intros [= <- <-]|].
    destruct (decode_step (c :: data)) as [[key data']|e']; [|by intros [= <- <-]].
    intros H%IH. by rewrite <- app_assoc.
Qed.

Lemma decode_loop_count (fuel : nat) (data : pystr) (buffer keys : list token)
    (e : option exn) :
  decode_loop fuel data buffer = Some (keys, e) ->
  (length keys <= length buffer + length data)%nat.
Proof.
  revert data buffer. induction fuel as [|fuel IH]; intros data buffer.
  - destruct data; [|done]. intros [= <- <-]. lia.
  - destruct data as [|c data]; cbn [decode_loop]; [intros [= <- <-]; lia|].
    destruct (decode_step (c :: data)) as [[key data']|e'] eqn:Hstep;
      [|intros [= <- <-]; lia].
    intros H%IH. apply decode_step_shorter in Hstep.
    rewrite length_app in H. cbn [length] in *. lia.
Qed.

(** X7. The decode loop only appends: the tokens already buffered stay,
    in place, whatever the input and whether or not it raises; what is
    appended and whether it raises does not depend on them; and no more
    tokens are appended than the input has characters. *)
Theorem decode_appends (data : pystr) (buffer : list token) :
  exists more e,
    decode data [] = Some (more, e) /\
    decode data buffer = Some (buffer ++ more, e) /\
    (length more <= length data)%nat.
Proof.
  destruct (decode_loop_enough (length data) data [] (Nat.le_refl _))
    as [_ [[more e] Hmore]].
  exists more, e. split_and!; [done| |].
  - unfold decode in *. apply (decode_loop_buffer _ _ buffer) in Hmore.
    by rewrite app_nil_r in Hmore.
  - by apply decode_loop_count in Hmore.
Qed.

(** X8. Text without the escape character never raises and gives one
    token per character: the named key of a control character of
    [KEYS_TABLE], the character itself otherwise. *)
Theorem decode_plain_text (data : pystr) (buffer : list token) :
  Forall (fun c => c <> 27) data ->
  decode data buffer = Some (buffer ++ (direct_key <$> data), None).
Proof.
  intros Hdata. revert buffer.
  induction Hdata as [|c data Hc _ IH]; intros buffer.
  - by rewrite app_nil_r.
  - assert (Hstep : decode_step (c :: data) = Ok (direct_key c, data)).
    { unfold decode_step, SS3, EXTENDED_ANSI_SEQ, CSI. cbn [Py.startswith].
      by rewrite (proj2 (Z.eqb_neq 27 c)). }
    apply (decode_cons _ _ _ buffer) in Hstep; [|done].
    rewrite Hstep, IH. cbn [fmap list_fmap]. by rewrite <- app_assoc.
Qed.

Lemma decode_plain_text_witness :
  decode [104; 105; 32; 10; 233] [] =
    Some ([[104]; [105]; Keys.SPACE; Keys.ENTER; [233]], None).
Proof.
  apply (decode_plain_text [104; 105; 32; 10; 233] []).
  repeat constructor; done.
Defined.

Ltac each_row H :=
  vm_compute in H;
  repeat (apply elem_of_cons in H as [H|H]; [injection H as -> ->|]);
  [..|by apply elem_of_nil in H].

(** X9. In [ESC [ code ; parameters ~] only the code before the first
    [;] counts: for every numeric code of [CSI_TABLE] but [1] (which
    with [;] starts the extended form) the iteration gives the key of
    the code whatever the parameters are, and takes the sequence up to
    its [~]. *)
Theorem numeric_csi_ignores_parameters (code : pystr) (key : token)
    (params rest : pystr) :
  Py.dict_get Keys.CSI_TABLE code = Some key ->
  is_digit (hd 0 code) = true -> code <> [49] ->
  Py.contains tilde params = false ->
  decode_step (CSI ++ code ++ semicolon :: params ++ tilde :: rest) = Ok (key, rest).
Proof.
  intros Hget Hdig Hcode Hparams.
  apply dict_get_elem_of in Hget; [|by compute_done].
  each_row Hget; try done.
  all: match goal with
       | |- decode_step (CSI ++ (?d :: ?tl) ++ _) = ?r =>
           change (decode_step (CSI ++ d :: (tl ++ semicolon :: params) ++ tilde :: rest)
                   = r)
       end.
  all: rewrite decode_step_numeric;
    [ reflexivity
    | done
    | cbn [app Py.contains]; by rewrite Hparams
    | reflexivity ].
Qed.

Lemma numeric_csi_ignores_parameters_witness :
  decode_step (CSI ++ [53] ++ semicolon :: [50] ++ tilde :: [97]) =
    Ok (Keys.PAGE_UP, [97]).
Proof.
  apply (numeric_csi_ignores_parameters [53] Keys.PAGE_UP [50] [97]); done.
Defined.



(** X11. After [ESC O] only the four characters of [SS3_MAPPING] are
    known: any other one, such as the [A] to [D] that terminals in
    application mode send for the arrows, raises [KeyError], and the
    loop ends there. *)
Theorem ss3_unknown_key (c : Z) (rest : pystr) (buffer : list token) :
  c < 80 \/ 83 < c ->
  decode_step (SS3 ++ c :: rest) = Raise KeyError /\
  decode (SS3 ++ c :: rest) buffer = Some (buffer, Some KeyError).
Proof.
  intros Hc.
  assert (Hstep : decode_step (SS3 ++ c :: rest) = Raise KeyError).
  { unfold decode_step. change (Py.startswith SS3 _) with true.
    cbn [app SS3 Py.getitem lookup list_lookup mbind result_bind].
    unfold Py.dict_getitem, Keys.SS3_MAPPING. cbn [Py.dict_get].
    repeat case_decide; try lia. done. }
  split; [done|]. by apply decode_raise.
Qed.

Lemma ss3_unknown_key_witness :
  decode (SS3 ++ 65 :: [97]) [] = Some ([], Some KeyError).
Proof. apply (ss3_unknown_key 65 [97] []). lia. Defined.

(** *** The keyboard while it is held *)

(** X12. While an instance holds the keyboard, whatever calls are made,
    it stays the owner and the terminal stays in the cbreak mode set at
    its [__enter__]; every other instance is turned down, by [__enter__]
    and by [getch], with [AssertionError] and no change of state. *)
Theorem held_exclusively (self h : nat) (block : bool) (w0 w1 w2 : World) :
  __enter__ self w0 = Returns self w1 ->
  during self w1 w2 ->
  h <> self ->
  owner w2 = Some self /\
  tty_attrs w2 = Termios.cbreak (tty_attrs w0) /\
  __enter__ h w2 = Raises AssertionError w2 /\
  __enter__ self w2 = Raises AssertionError w2 /\
  getch h block w2 = Raises AssertionError w2.
Proof.
  intros Henter Hduring Hh.
  assert (Ho0 : owner w0 = None).
  { destruct (owner w0) eqn:Ho; [|done].
    rewrite enter_owned in Henter by (by rewrite Ho). done. }
  rewrite (enter_unowned _ _ Ho0) in Henter. injection Henter as <-.
  apply during_frame in Hduring as (Ho & Ha & _); [|done].
  cbn [owner tty_attrs] in Ho, Ha.
  split_and!; [done|done|..].
  - apply enter_owned. by rewrite Ho.
  - apply enter_owned. by rewrite Ho.
  - apply getch_not_owner. rewrite Ho. congruence.
Qed.

Lemma held_exclusively_witness :
  exists wa w2,
    getch 0 true
      (mk_World (Some 0%nat) (Termios.cbreak attrs0) [] [[98; 99]]
         (<[0%nat := mk_instance [] (Some attrs0)]> ∅)) = Returns (Some [98]) wa /\
    clear 1 wa = Returns tt w2 /\
    owner w2 = Some 0%nat /\
    tty_attrs w2 = Termios.cbreak (tty_attrs (mk_World None attrs0 [120] [[98; 99]] ∅)) /\
    __enter__ 1 w2 = Raises AssertionError w2 /\
    __enter__ 0 w2 = Raises AssertionError w2 /\
    getch 1 false w2 = Raises AssertionError w2.
Proof.
  eexists _, _. split; [reflexivity|]. split; [reflexivity|].
  apply (held_exclusively 0 1 false (mk_World None attrs0 [120] [[98; 99]] ∅)
           (mk_World (Some 0%nat) (Termios.cbreak attrs0) [] [[98; 99]]
              (<[0%nat := mk_instance [] (Some attrs0)]> ∅))).
  - reflexivity.
  - eapply (during_call _ _ (Getch 0 true)); [done| |].
    { left. eexists. reflexivity. }
    eapply (during_call _ _ (Clear 1)); [done| |].
    { left. eexists. reflexivity. }
    eapply (during_call _ _ (Exit 1)); [done| |].
    { right. eexists. reflexivity. }
    eapply (during_call _ _ (Enter 1)); [done| |].
    { right. eexists. reflexivity. }
    apply during_refl.
  - done.
Defined.

(** X13. The keyboard can be taken again once it is released: after the
    [__exit__] of the owner, [__enter__] by any instance succeeds, and
    what it saves as the settings to restore is the attributes the
    terminal had before the first [__enter__]. *)
Theorem reacquire_after_exit (self h : nat) (w0 w1 w2 : World) :
  __enter__ self w0 = Returns self w1 ->
  during self w1 w2 ->
  exists w3 w4,
    __exit__ self w2 = Returns tt w3 /\
    __enter__ h w3 = Returns h w4 /\
    owner w4 = Some h /\
    _original_settings (self_of w4 h) = Some (tty_attrs w0) /\
    tty_attrs w4 = Termios.cbreak (tty_attrs w0).
Proof.
  intros Henter Hduring.
  assert (Ho0 : owner w0 = None).
  { destruct (owner w0) eqn:Ho; [|done].
    rewrite enter_owned in Henter by (by rewrite Ho). done. }
  rewrite (enter_unowned _ _ Ho0) in Henter. injection Henter as <-.
  apply during_frame in Hduring as (Ho & Ha & Hs); [|done].
  cbn [owner tty_attrs] in Ho, Ha. specialize (Hs self).
  rewrite self_of_insert, decide_True in Hs by done.
  cbn [_original_settings] in Hs.
  eexists _, _. split; [by apply exit_owner|].
  split; [by apply enter_unowned|]. cbn [owner tty_attrs].
  split_and!; [done| |done].
  rewrite self_of_insert. by case_decide.
Qed.

Lemma reacquire_after_exit_witness :
  exists w3 w4,
    __exit__ 0 world1 = Returns tt w3 /\
    __enter__ 1 w3 = Returns 1%nat w4 /\
    owner w4 = Some 1%nat /\
    _original_settings (self_of w4 1) = Some attrs0 /\
    tty_attrs w4 = Termios.cbreak attrs0.
Proof.
  apply (reacquire_after_exit 0 1 (world0 None [97]) world1 world1).
  - reflexivity.
  - apply during_refl.
Defined.

End KeyboardMore.

(** * Properties of [rt/image.py] *)

Section ImageProps.

Import Image.

(** X14. [trim] brings every component into the range from 0 to 1: no
    component of the result is below [0.0] or above [1.0]; a component
    that was in the range, or is not a number, is left as it is; and
    trimming twice is trimming once. *)
Theorem trim_clamps (c : Color4f) :
  Forall (fun x => lt_zero x = false /\ gt_one x = false) (as_tuple (trim c)) /\
  Forall2 (fun x y => lt_zero x = false -> gt_one x = false -> y = x)
          (as_tuple c) (as_tuple (trim c)) /\
  trim (trim c) = trim c.
Proof.
  assert (Hrange : forall x, lt_zero (trim1 x) = false /\ gt_one (trim1 x) = false).
  { intros x. unfold trim1.
    destruct (lt_zero x) eqn:H0; [done|]. by destruct (gt_one x) eqn:H1. }
  assert (Hfix : forall x, lt_zero x = false -> gt_one x = false -> trim1 x = x).
  { intros x H0 H1. unfold trim1. by rewrite H0, H1. }
  split_and!.
  - unfold as_tuple, trim. cbn [r g b a].
    repeat (constructor; [apply Hrange|]). constructor.
  - unfold as_tuple, trim. cbn [r g b a].
    repeat (constructor; [intros H0 H1; by apply Hfix|]). constructor.
  - unfold trim. cbn [r g b a]. f_equal; by apply Hfix; apply Hrange.
Qed.

Lemma inside_spec (img : Image) (x y : Z) :
  inside img x y = true <-> 0 <= x < _width img /\ 0 <= y < _height img.
Proof. unfold inside. lia. Qed.

Lemma position_ok {A} (l : list A) (i : Z) :
  0 <= i < Z.of_nat (length l) -> PyList.position l i = Ok (Z.to_nat i).
Proof.
  intros Hi. unfold PyList.position.
  rewrite (proj2 (Z.ltb_ge i 0)) by lia.
  by rewrite (proj2 (Z.leb_le 0 i)), (proj2 (Z.ltb_lt i _)) by lia.
Qed.

Lemma index_inside (img : Image) (x y : Z) :
  image_wf img -> inside img x y = true ->
  0 <= y * _width img + x < Z.of_nat (length (_data img)).
Proof.
  intros (Hw & Hh & Hlen) [Hx Hy]%inside_spec. rewrite Hlen, Z2Nat.id by nia. nia.
Qed.

Lemma index_injective (img : Image) (x y x' y' : Z) :
  inside img x y = true -> inside img x' y' = true ->
  y * _width img + x = y' * _width img + x' -> x = x' /\ y = y'.
Proof.
  intros [Hx Hy]%inside_spec [Hx' Hy']%inside_spec Heq.
  assert (y = y') by nia. subst. lia.
Qed.

Lemma getitem_inside (img : Image) (x y : Z) :
  image_wf img -> inside img x y = true ->
  exists p,
    _data img !! Z.to_nat (y * _width img + x) = Some p /\
    __getitem__ img (x, y) = Ok (color_of p).
Proof.
  intros Hwf Hin. pose proof (index_inside _ _ _ Hwf Hin) as Hidx.
  destruct (lookup_lt_is_Some_2 (_data img) (Z.to_nat (y * _width img + x)))
    as [p Hp]; [lia|].
  exists p. split; [done|]. unfold __getitem__, PyList.getitem.
  rewrite Hin. cbn [assert mbind result_bind].
  rewrite position_ok by done. cbn [mbind result_bind]. by rewrite Hp.
Qed.

Lemma setitem_inside (img : Image) (x y : Z) (c : Color4f) :
  image_wf img -> inside img x y = true ->
  __setitem__ img (x, y) (as_tuple c) =
    Ok (mk_Image (_width img) (_height img)
          (<[Z.to_nat (y * _width img + x) := (r c, g c, b c, a c)]> (_data img))).
Proof.
  intros Hwf Hin. pose proof (index_inside _ _ _ Hwf Hin) as Hidx.
  unfold __setitem__, PyList.setitem, as_tuple. cbn [mbind result_bind].
  rewrite Hin. cbn [assert mbind result_bind].
  by rewrite position_ok by done.
Qed.

Lemma wf_insert (img : Image) (i : nat) (p : pixel) :
  image_wf img ->
  image_wf (mk_Image (_width img) (_height img) (<[i := p]> (_data img))).
Proof.
  intros (Hw & Hh & Hlen). unfold image_wf. cbn [_width _height _data].
  by rewrite length_insert.
Qed.

(** X15. A new image has the size asked for and is white all over;
    a width or a height that is not positive is refused with
    [AssertionError]. *)
Theorem init_white (width height : Z) :
  match __init__ width height with
  | Ok img =>
    0 < width /\ 0 < height /\ size img = (width, height) /\ image_wf img /\
    forall x y, inside img x y = true -> __getitem__ img (x, y) = Ok (color_of white)
  | Raise e => e = AssertionError /\ (width <= 0 \/ height <= 0)
  end.
Proof.
  unfold __init__. destruct ((0 <? width) && (0 <? height)) eqn:Hpos;
    cbn [assert mbind result_bind mret result_ret]; [|split; [done | lia]].
  assert (Hwf : image_wf (mk_Image width height
                  (replicate (Z.to_nat (width * height)) white))).
  { unfold image_wf. cbn [_width _height _data]. rewrite length_replicate. lia. }
  split_and!; [lia | lia | done | done |].
  intros x y Hin. destruct (getitem_inside _ x y Hwf Hin) as (p & Hp & ->).
  cbn [_data] in Hp. by apply lookup_replicate in Hp as [-> _].
Qed.

Lemma setitem_reads (img : Image) (x y : Z) (c : Color4f) :
  image_wf img -> inside img x y = true ->
  exists img',
    __setitem__ img (x, y) (as_tuple c) = Ok img' /\
    image_wf img' /\ size img' = size img /\
    __getitem__ img' (x, y) = Ok c /\
    forall x' y', inside img x' y' = true -> (x', y') <> (x, y) ->
      __getitem__ img' (x', y') = __getitem__ img (x', y').
Proof.
  intros Hwf Hin.
  pose proof (wf_insert img (Z.to_nat (y * _width img + x)) (r c, g c, b c, a c) Hwf)
    as Hwf'.
  pose proof (index_inside _ _ _ Hwf Hin) as Hidx.
  exists (mk_Image (_width img) (_height img)
            (<[Z.to_nat (y * _width img + x) := (r c, g c, b c, a c)]> (_data img))).
  split_and!; [by apply setitem_inside | done | done | |].
  - destruct (getitem_inside _ x y Hwf' Hin) as (p & Hp & Hg).
    cbn [_data _width] in Hp. rewrite list_lookup_insert_eq in Hp by lia.
    etrans; [exact Hg|]. injection Hp as Hp. subst p. by destruct c.
  - intros x' y' Hin' Hne.
    destruct (getitem_inside _ x' y' Hwf' Hin') as (p & Hp & Hg).
    destruct (getitem_inside _ x' y' Hwf Hin') as (q & Hq & Hg').
    etrans; [exact Hg|]. rewrite Hg'. cbn [_data _width] in Hp.
    rewrite list_lookup_insert_ne in Hp.
    + congruence.
    + intros Heq. pose proof (index_inside _ _ _ Hwf Hin') as Hidx'.
      apply Z2Nat.inj in Heq; [|lia..].
      destruct (index_injective img x y x' y' Hin Hin' Heq) as [-> ->]. done.
Qed.

(** X16. Writing a pixel and reading it back: after [img[x, y] = c] for
    a position inside the image, [img[x, y]] is [c], every other
    position reads as before and the size is unchanged. *)
Theorem setitem_getitem (img : Image) (x y : Z) (c : Color4f) :
  image_wf img -> inside img x y = true ->
  exists img',
    __setitem__ img (x, y) (as_tuple c) = Ok img' /\
    image_wf img' /\ size img' = size img /\
    __getitem__ img' (x, y) = Ok c /\
    forall x' y', inside img x' y' = true -> (x', y') <> (x, y) ->
      __getitem__ img' (x', y') = __getitem__ img (x', y').
Proof. apply setitem_reads. Qed.

Lemma setitem_getitem_witness :
  exists img',
    __setitem__ (mk_Image 2 2 [white; white; white; white]) (1, 0)
      (as_tuple (mk_Color4f (Float 0.5) (Float 0.25) (Int 0) (Float 1))) = Ok img' /\
    image_wf img' /\ size img' = (2, 2) /\
    __getitem__ img' (1, 0) = Ok (mk_Color4f (Float 0.5) (Float 0.25) (Int 0) (Float 1)) /\
    forall x' y', inside (mk_Image 2 2 [white; white; white; white]) x' y' = true ->
      (x', y') <> (1, 0) ->
      __getitem__ img' (x', y') =
        __getitem__ (mk_Image 2 2 [white; white; white; white]) (x', y').
Proof.
  apply (setitem_getitem (mk_Image 2 2 [white; white; white; white]) 1 0).
  - unfold image_wf. cbn. lia.
  - reflexivity.
Defined.

(** X17. A color of three components is stored with the integer 255
    as its fourth: it reads back with alpha [255], not [1.0], and only
    [trim] brings that to [1.0]. *)
Theorem setitem_rgb_alpha (img : Image) (x y : Z) (r0 g0 b0 : num) :
  image_wf img -> inside img x y = true ->
  exists img',
    __setitem__ img (x, y) [r0; g0; b0] = Ok img' /\
    __getitem__ img' (x, y) = Ok (mk_Color4f r0 g0 b0 (Int 255)) /\
    a (trim (mk_Color4f r0 g0 b0 (Int 255))) = Float 1.
Proof.
  intros Hwf Hin.
  destruct (setitem_reads img x y (mk_Color4f r0 g0 b0 (Int 255)) Hwf Hin)
    as (img' & Hset & _ & _ & Hget & _).
  exists img'. split_and!; [exact Hset | exact Hget | reflexivity].
Qed.

Lemma setitem_rgb_alpha_witness :
  exists img',
    __setitem__ (mk_Image 1 1 [white]) (0, 0) [Float 0; Float 0; Float 0] = Ok img' /\
    __getitem__ img' (0, 0) = Ok (mk_Color4f (Float 0) (Float 0) (Float 0) (Int 255)) /\
    a (trim (mk_Color4f (Float 0) (Float 0) (Float 0) (Int 255))) = Float 1.
Proof.
  apply (setitem_rgb_alpha (mk_Image 1 1 [white]) 0 0).
  - unfold image_wf. cbn. lia.
  - reflexivity.
Defined.

(** X18. Both accessors refuse a position outside the image with
    [AssertionError], whatever the image and the value: a negative
    coordinate is never counted from the end, as a bare list index
    would be. *)
Theorem access_outside (img : Image) (x y : Z) (value : tuple) :
  inside img x y = false ->
  __getitem__ img (x, y) = Raise AssertionError /\
  __setitem__ img (x, y) value = Raise AssertionError.
Proof.
  intros Hout. split.
  - unfold __getitem__. by rewrite Hout.
  - unfold __setitem__.
    destruct value as [|r0 [|g0 [|b0 [|a0 [|extra value]]]]];
      cbn [mbind result_bind]; try done; by rewrite Hout.
Qed.

Lemma access_outside_witness :
  __getitem__ (mk_Image 2 2 [white; white; white; white]) (-1, 0) = Raise AssertionError /\
  __setitem__ (mk_Image 2 2 [white; white; white; white]) (-1, 0)
    [Float 0; Float 0; Float 0] = Raise AssertionError.
Proof. apply access_outside. reflexivity. Defined.

(** *** [crop] *)

Lemma inside_size (a1 a2 : Image) (x y : Z) :
  size a1 = size a2 -> inside a1 x y = inside a2 x y.
Proof. unfold size, inside. by intros [= -> ->]. Qed.

Lemma color_of_inj (p q : pixel) : color_of p = color_of q -> p = q.
Proof. destruct p as [[[? ?] ?] ?], q as [[[? ?] ?] ?]. by intros [= -> -> -> ->]. Qed.

Lemma init_ok (width height : Z) :
  0 < width -> 0 < height ->
  exists img,
    __init__ width height = Ok img /\ image_wf img /\ size img = (width, height).
Proof.
  intros Hw Hh. eexists. unfold __init__.
  rewrite (proj2 (Z.ltb_lt 0 width)), (proj2 (Z.ltb_lt 0 height)) by done.
  split; [reflexivity|]. split; [|done].
  unfold image_wf. cbn [_width _height _data]. by rewrite length_replicate.
Qed.

(** One row of a copy loop, as in [crop] and [from_pnm]: the pixels
    come from [src]. *)
Lemma fill_row (src : Z -> Z -> result Color4f) (t : Image) (x0 y0 y : Z) (xs : list Z) :
  image_wf t ->
  (forall x, x ∈ xs -> (exists c, src x y = Ok c) /\ inside t (x - x0) (y - y0) = true) ->
  exists t',
    PyList.for_each xs (fun x texture =>
      c ← src x y;
      __setitem__ texture (x - x0, y - y0) (as_tuple c)) t = Ok t' /\
    image_wf t' /\ size t' = size t /\
    forall i j, inside t i j = true ->
      __getitem__ t' (i, j) =
        if decide (j = y - y0 /\ i + x0 ∈ xs)
        then src (i + x0) y else __getitem__ t (i, j).
Proof.
  revert t. induction xs as [|x xs IH]; intros t Ht Hxs.
  - exists t. split_and!; [done..|]. intros i j _.
    rewrite decide_False; [done|]. intros [_ H]. by apply elem_of_nil in H.
  - destruct (Hxs x) as [[c Hget] Hin']; [by left|].
    destruct (setitem_reads t (x - x0) (y - y0) c Ht Hin')
      as (t1 & Hset & Ht1 & Hsize1 & Hsame & Hother).
    destruct (IH t1 Ht1) as (t' & Hloop & Ht' & Hsize' & Hpix).
    { intros x' Hx'. destruct (Hxs x') as [H1 H2]; [by right|].
      split; [done|]. by rewrite (inside_size t1 t). }
    exists t'. cbn [PyList.for_each]. rewrite Hget. cbn [mbind result_bind].
    rewrite Hset. cbn [mbind result_bind]. split_and!; [done | done | congruence |].
    intros i j Hij. rewrite Hpix by (by rewrite (inside_size t1 t)).
    destruct (decide (j = y - y0 /\ i + x0 ∈ xs)) as [[-> Hi]|Hno].
    + rewrite decide_True; [done|]. split; [done|]. by right.
    + destruct (decide ((i, j) = (x - x0, y - y0))) as [[= -> ->]|Hne].
      * rewrite decide_True by (split; [done|]; apply elem_of_cons; left; lia).
        replace (x - x0 + x0) with x by lia. by rewrite Hsame, Hget.
      * rewrite decide_False.
        { by apply Hother. }
        intros [-> [Hx|Hx]%elem_of_cons]; [|by apply Hno].
        apply Hne. f_equal. lia.
Qed.

(** The rows of a copy loop. *)
Lemma fill_rows (src : Z -> Z -> result Color4f) (t : Image) (x0 y0 x1 : Z) (ys : list Z) :
  image_wf t ->
  _width t = x1 - x0 + 1 ->
  (forall x y, x0 <= x <= x1 -> y ∈ ys ->
     (exists c, src x y = Ok c) /\ 0 <= y - y0 < _height t) ->
  exists t',
    PyList.for_each ys (fun y texture =>
      PyList.for_each (PyList.range x0 (x1 + 1)) (fun x texture =>
        c ← src x y;
        __setitem__ texture (x - x0, y - y0) (as_tuple c)) texture) t = Ok t' /\
    image_wf t' /\ size t' = size t /\
    forall i j, inside t i j = true ->
      __getitem__ t' (i, j) =
        if decide (j + y0 ∈ ys)
        then src (i + x0) (j + y0) else __getitem__ t (i, j).
Proof.
  revert t. induction ys as [|y ys IH]; intros t Ht Hw Hys.
  - exists t. split_and!; [done..|]. intros i j _.
    rewrite decide_False; [done|]. by intros H%elem_of_nil.
  - destruct (fill_row src t x0 y0 y (PyList.range x0 (x1 + 1)) Ht)
      as (t1 & Hrow & Ht1 & Hsize1 & Hpix1).
    { intros x [Hx Hx']%elem_of_seqZ.
      destruct (Hys x y) as [Hc Hy]; [lia | by left |].
      split; [done|]. apply inside_spec. lia. }
    assert (Hw1 : _width t1 = x1 - x0 + 1).
    { unfold size in Hsize1. injection Hsize1 as -> _. done. }
    assert (Hh1 : _height t1 = _height t).
    { unfold size in Hsize1. by injection Hsize1. }
    destruct (IH t1 Ht1 Hw1) as (t' & Hloop & Ht' & Hsize' & Hpix).
    { intros x y' Hx Hy'. rewrite Hh1. apply Hys; [done | by right]. }
    exists t'. cbn [PyList.for_each]. rewrite Hrow. cbn [mbind result_bind].
    split_and!; [done | done | congruence |].
    intros i j Hij. rewrite Hpix by (by rewrite (inside_size t1 t)).
    rewrite Hpix1 by done.
    apply inside_spec in Hij as [Hi Hj].
    destruct (decide (j + y0 ∈ ys)) as [Hin|Hno].
    + rewrite decide_True; [done|]. by right.
    + destruct (decide (j = y - y0)) as [->|Hne].
      * rewrite decide_True.
        { rewrite decide_True by (apply elem_of_cons; left; lia).
          f_equal. lia. }
        split; [done|]. apply elem_of_seqZ. lia.
      * rewrite decide_False by (by intros [? _]).
        rewrite decide_False; [done|].
        intros [Hy0|Hy0]%elem_of_cons; [lia | done].
Qed.

Lemma crop_ok (img : Image) (x0 y0 x1 y1 : Z) :
  image_wf img ->
  0 <= x0 <= x1 -> x1 < _width img -> 0 <= y0 <= y1 -> y1 < _height img ->
  exists t,
    crop img (x0, y0, x1, y1) = Ok t /\
    image_wf t /\ size t = (x1 - x0 + 1, y1 - y0 + 1) /\
    forall i j, inside t i j = true ->
      __getitem__ t (i, j) = __getitem__ img (i + x0, j + y0).
Proof.
  intros Himg Hx Hx1 Hy Hy1.
  destruct (init_ok (x1 - x0 + 1) (y1 - y0 + 1)) as (t0 & Hinit & Ht0 & Hsize0);
    [lia..|].
  assert (Hw0 : _width t0 = x1 - x0 + 1) by (unfold size in Hsize0; by injection Hsize0).
  assert (Hh0 : _height t0 = y1 - y0 + 1) by (unfold size in Hsize0; by injection Hsize0).
  destruct (fill_rows (fun x y => __getitem__ img (x, y)) t0 x0 y0 x1
              (PyList.range y0 (y1 + 1)) Ht0)
    as (t & Hloop & Ht & Hsize & Hpix); [done| |].
  { intros x y Hx0 [Hy0 Hy0']%elem_of_seqZ. split; [|lia].
    destruct (getitem_inside img x y Himg) as (p & _ & Hp); [apply inside_spec; lia|].
    by exists (color_of p). }
  exists t. split_and!; [|done|congruence|].
  - unfold crop.
    replace ((0 <=? x0) && (x0 <=? x1) && (x1 <? _width img) &&
             ((0 <=? y0) && (y0 <=? y1) && (y1 <? _height img))) with true by lia.
    cbn [assert mbind result_bind]. rewrite Hinit. cbn [mbind result_bind]. exact Hloop.
  - intros i j Hij. rewrite (inside_size t t0) in Hij by done.
    rewrite Hpix by done. rewrite decide_True; [done|].
    apply inside_spec in Hij as [_ Hj]. apply elem_of_seqZ. lia.
Qed.

Lemma crop_spec_aux (img : Image) (x0 y0 x1 y1 : Z) :
  image_wf img ->
  match crop img (x0, y0, x1, y1) with
  | Ok t =>
    (0 <= x0 <= x1 /\ x1 < _width img) /\ (0 <= y0 <= y1 /\ y1 < _height img) /\
    image_wf t /\ size t = (x1 - x0 + 1, y1 - y0 + 1) /\
    forall i j, inside t i j = true ->
      __getitem__ t (i, j) = __getitem__ img (i + x0, j + y0)
  | Raise e =>
    e = AssertionError /\
    ~ ((0 <= x0 <= x1 /\ x1 < _width img) /\ (0 <= y0 <= y1 /\ y1 < _height img))
  end.
Proof.
  intros Himg.
  destruct (decide ((0 <= x0 <= x1 /\ x1 < _width img) /\
                    (0 <= y0 <= y1 /\ y1 < _height img))) as [Hrect|Hrect].
  - destruct (crop_ok img x0 y0 x1 y1 Himg) as (t & -> & Ht & Hsize & Hpix); [lia..|].
    destruct Hrect as [Hx Hy]. split; [exact Hx|]. split; [exact Hy|]. by split_and!.
  - unfold crop.
    replace ((0 <=? x0) && (x0 <=? x1) && (x1 <? _width img) &&
             ((0 <=? y0) && (y0 <=? y1) && (y1 <? _height img))) with false by lia.
    done.
Qed.

(** X19. [crop] of a rectangle that lies in the image gives an image
    of the size of the rectangle whose pixel at [(i, j)] is the pixel of
    the source at [(x0 + i, y0 + j)]; a rectangle that is inverted or
    reaches outside is refused with [AssertionError]. *)
Theorem crop_spec (img : Image) (x0 y0 x1 y1 : Z) :
  image_wf img ->
  match crop img (x0, y0, x1, y1) with
  | Ok t =>
    (0 <= x0 <= x1 /\ x1 < _width img) /\ (0 <= y0 <= y1 /\ y1 < _height img) /\
    image_wf t /\ size t = (x1 - x0 + 1, y1 - y0 + 1) /\
    forall i j, inside t i j = true ->
      __getitem__ t (i, j) = __getitem__ img (i + x0, j + y0)
  | Raise e =>
    e = AssertionError /\
    ~ ((0 <= x0 <= x1 /\ x1 < _width img) /\ (0 <= y0 <= y1 /\ y1 < _height img))
  end.
Proof. apply crop_spec_aux. Qed.

Lemma crop_spec_witness :
  match crop (mk_Image 2 2 [white; (Int 1, Int 2, Int 3, Int 4); white; white])
             (1, 0, 1, 1) with
  | Ok t =>
    (0 <= 1 <= 1 /\ 1 < 2) /\ (0 <= 0 <= 1 /\ 1 < 2) /\
    image_wf t /\ size t = (1 - 1 + 1, 1 - 0 + 1) /\
    forall i j, inside t i j = true ->
      __getitem__ t (i, j) =
        __getitem__ (mk_Image 2 2 [white; (Int 1, Int 2, Int 3, Int 4); white; white])
          (i + 1, j + 0)
  | Raise e =>
    e = AssertionError /\
    ~ ((0 <= 1 <= 1 /\ 1 < 2) /\ (0 <= 0 <= 1 /\ 1 < 2))
  end.
Proof.
  apply (crop_spec (mk_Image 2 2 [white; (Int 1, Int 2, Int 3, Int 4); white; white])
           1 0 1 1).
  unfold image_wf. cbn. lia.
Defined.

Lemma image_ext (a1 a2 : Image) :
  image_wf a1 -> image_wf a2 -> size a1 = size a2 ->
  (forall x y, inside a1 x y = true -> __getitem__ a1 (x, y) = __getitem__ a2 (x, y)) ->
  a1 = a2.
Proof.
  intros H1 H2 Hsize Hpix.
  destruct a1 as [w h d1], a2 as [w2 h2 d2]. unfold size in Hsize.
  cbn [_width _height] in Hsize. injection Hsize as <- <-. f_equal.
  pose proof H1 as (Hw & Hh & Hlen1). pose proof H2 as (_ & _ & Hlen2).
  cbn [_width _height _data] in *.
  apply list_eq. intros n.
  destruct (decide (n < length d1)%nat) as [Hn|Hn].
  - assert (Hin : inside (mk_Image w h d1) (Z.of_nat n mod w) (Z.of_nat n / w) = true).
    { apply inside_spec. cbn [_width _height]. split.
      - apply Z.mod_pos_bound. lia.
      - split; [apply Z.div_pos; lia|]. apply Z.div_lt_upper_bound; nia. }
    specialize (Hpix _ _ Hin).
    destruct (getitem_inside _ _ _ H1 Hin) as (p & Hp & Hg1).
    destruct (getitem_inside (mk_Image w h d2) _ _ H2 Hin) as (q & Hq & Hg2).
    cbn [_width _data] in Hp, Hq.
    replace (Z.of_nat n / w * w + Z.of_nat n mod w) with (Z.of_nat n) in Hp, Hq
      by (rewrite (Z.div_mod (Z.of_nat n) w) at 1 by lia; lia).
    rewrite Nat2Z.id in Hp, Hq. rewrite Hp, Hq. f_equal. apply color_of_inj.
    congruence.
  - rewrite !lookup_ge_None_2; [done|lia..].
Qed.

(** X20. Cropping to the whole image gives back the image. *)
Theorem crop_whole (img : Image) :
  image_wf img ->
  crop img (0, 0, _width img - 1, _height img - 1) = Ok img.
Proof.
  intros Himg. pose proof Himg as (Hw & Hh & _).
  destruct (crop_ok img 0 0 (_width img - 1) (_height img - 1) Himg)
    as (t & -> & Ht & Hsize & Hpix); [lia..|].
  f_equal. apply image_ext; [done | done | |].
  - rewrite Hsize. unfold size. f_equal; lia.
  - intros x y Hxy. rewrite Hpix by done. do 2 f_equal; lia.
Qed.

Lemma crop_whole_witness :
  crop (mk_Image 2 1 [white; (Int 1, Int 2, Int 3, Int 4)]) (0, 0, 2 - 1, 1 - 1) =
    Ok (mk_Image 2 1 [white; (Int 1, Int 2, Int 3, Int 4)]).
Proof.
  apply (crop_whole (mk_Image 2 1 [white; (Int 1, Int 2, Int 3, Int 4)])).
  unfold image_wf. cbn. lia.
Defined.

(** X21. Cropping a crop is cropping once, to the inner rectangle moved
    by the corner of the outer one. *)
Theorem crop_crop (img t : Image) (x0 y0 x1 y1 u0 v0 u1 v1 : Z) :
  image_wf img ->
  crop img (x0, y0, x1, y1) = Ok t ->
  0 <= u0 <= u1 -> u1 < _width t -> 0 <= v0 <= v1 -> v1 < _height t ->
  crop t (u0, v0, u1, v1) = crop img (x0 + u0, y0 + v0, x0 + u1, y0 + v1).
Proof.
  intros Himg Hcrop Hu Hu1 Hv Hv1.
  pose proof (crop_spec_aux img x0 y0 x1 y1 Himg) as Hspec. rewrite Hcrop in Hspec.
  destruct Hspec as (Hx & Hy & Ht & Hsize & Hpix).
  assert (Hwt : _width t = x1 - x0 + 1) by (unfold size in Hsize; by injection Hsize).
  assert (Hht : _height t = y1 - y0 + 1) by (unfold size in Hsize; by injection Hsize).
  destruct (crop_ok t u0 v0 u1 v1 Ht) as (t2 & -> & Ht2 & Hsize2 & Hpix2); [lia..|].
  destruct (crop_ok img (x0 + u0) (y0 + v0) (x0 + u1) (y0 + v1) Himg)
    as (t3 & -> & Ht3 & Hsize3 & Hpix3); [lia..|].
  f_equal. apply image_ext; [done | done | |].
  - rewrite Hsize2, Hsize3. f_equal; lia.
  - intros i j Hij. rewrite Hpix2 by done.
    rewrite Hpix3 by (by rewrite (inside_size t3 t2) by (rewrite Hsize2, Hsize3; f_equal; lia)).
    rewrite Hpix.
    + do 2 f_equal; lia.
    + apply inside_spec in Hij as [Hi Hj].
      unfold size in Hsize2. injection Hsize2 as Hw2 Hh2.
      apply inside_spec. lia.
Qed.

Lemma crop_crop_witness :
  crop (mk_Image 2 1 [(Int 1, Int 2, Int 3, Int 4); white]) (0, 0, 0, 0) =
    crop (mk_Image 3 1 [white; (Int 1, Int 2, Int 3, Int 4); white])
      (1 + 0, 0 + 0, 1 + 0, 0 + 0).
Proof.
  apply (crop_crop (mk_Image 3 1 [white; (Int 1, Int 2, Int 3, Int 4); white])
           (mk_Image 2 1 [(Int 1, Int 2, Int 3, Int 4); white]) 1 0 2 0 0 0 0 0).
  - unfold image_wf. cbn. lia.
  - reflexivity.
  - lia.
  - cbn. lia.
  - lia.
  - cbn. lia.
Defined.

End ImageProps.

(** ** [PNMLoader.from_pnm] *)

Section PNMProps.

Import Image PNMLoader.

Context (strip : pystr -> pystr) (split : pystr -> list pystr).
Context (int : pystr -> option Z) (truediv : Z -> Z -> result float).

Lemma getitem_ok {A} (l : list A) (i : Z) (x : A) :
  0 <= i -> l !! Z.to_nat i = Some x -> PyList.getitem l i = Ok x.
Proof.
  intros Hi Hx. unfold PyList.getitem.
  rewrite position_ok.
  - cbn [mbind result_bind]. by rewrite Hx.
  - apply lookup_lt_Some in Hx. lia.
Qed.

Lemma getitem_short {A} (l : list A) (i : Z) :
  0 <= i -> Z.of_nat (length l) <= i -> PyList.getitem l i = Raise IndexError.
Proof.
  intros Hi Hlen. unfold PyList.getitem, PyList.position.
  rewrite (proj2 (Z.ltb_ge i 0)) by lia.
  by rewrite (proj2 (Z.leb_le 0 i)), (proj2 (Z.ltb_ge i _)) by lia.
Qed.

Lemma for_each_ext {A S} (items : list A) (f g : A -> S -> result S) (s : S) :
  (forall x s, x ∈ items -> f x s = g x s) ->
  PyList.for_each items f s = PyList.for_each items g s.
Proof.
  revert s. induction items as [|x items IH]; intros s Hfg; [done|].
  cbn [PyList.for_each]. rewrite Hfg by (by left).
  destruct (g x s) as [s'|e]; [|done]. cbn [mbind result_bind].
  apply IH. intros y s'' Hy. apply Hfg. by right.
Qed.

Lemma range_step_3 (lo n : Z) :
  0 <= n ->
  range_step lo (lo + 3 * n) 3 = (fun k => lo + k * 3) <$> seqZ 0 n.
Proof.
  intros Hn. unfold range_step. do 2 f_equal.
  replace (lo + 3 * n - lo + 3 - 1) with (2 + n * 3) by lia.
  by rewrite Z.div_add by lia.
Qed.

Lemma range_step_body (body : list pystr) :
  range_step 3 (Z.of_nat (3 + length body)) 3 =
    (fun k => 3 + k * 3) <$> seqZ 0 ((Z.of_nat (length body) + 2) `div` 3).
Proof.
  unfold range_step. do 2 f_equal. f_equal. lia.
Qed.

(** One turn of the loop that reads the colors. *)
Lemma parse_head (tr : option (Z * Z * Z)) (pre : list pystr) (sa sb sc : pystr)
    (body : list pystr) (acc : list pixel) (m : Z) :
  0 <= m ->
  PyList.for_each ((fun k => Z.of_nat (length pre) + k * 3) <$> seqZ 0 (1 + m))
      (read_color int truediv (pre ++ sa :: sb :: sc :: body) tr) acc =
    rgb ← unpack3 int [sa; sb; sc];
    value ← color truediv tr rgb;
    PyList.for_each
      ((fun k => Z.of_nat (length (pre ++ [sa; sb; sc])) + k * 3) <$> seqZ 0 m)
      (read_color int truediv ((pre ++ [sa; sb; sc]) ++ body) tr)
      (acc ++ [value]).
Proof.
  intros Hm. rewrite seqZ_cons by lia.
  replace (Z.pred (1 + m)) with m by lia.
  change (Z.succ 0) with (1 + 0). rewrite <- fmap_add_seqZ.
  rewrite fmap_cons, <- list_fmap_compose.
  cbn [PyList.for_each].
  assert (Hhead : read_color int truediv (pre ++ sa :: sb :: sc :: body) tr
                    (Z.of_nat (length pre) + 0 * 3) acc =
                  rgb ← unpack3 int [sa; sb; sc];
                  value ← color truediv tr rgb;
                  mret (acc ++ [value])).
  { unfold read_color, slice.
    replace (Z.to_nat (Z.of_nat (length pre) + 0 * 3 + 3 - (Z.of_nat (length pre) + 0 * 3)))
      with 3%nat by lia.
    replace (Z.to_nat (Z.of_nat (length pre) + 0 * 3)) with (length pre) by lia.
    by rewrite drop_app_length. }
  rewrite Hhead.
  destruct (unpack3 int [sa; sb; sc]) as [rgb|e]; [|done].
  cbn [mbind result_bind].
  destruct (color truediv tr rgb) as [value|e]; [|done].
  cbn [mbind result_bind mret result_ret].
  rewrite <- (assoc_L (++) pre [sa; sb; sc] body).
  cbn [app]. f_equal. apply list_fmap_ext. intros _ k _. cbn.
  rewrite length_app. cbn [length]. lia.
Qed.

Lemma parse_ok (tr : option (Z * Z * Z)) (rgbs : list (Z * Z * Z)) :
  forall colors pre body acc,
    pnm_parses int body (pnm_body rgbs) ->
    pnm_colors truediv tr rgbs colors ->
    PyList.for_each
        ((fun k => Z.of_nat (length pre) + k * 3) <$> seqZ 0 (Z.of_nat (length rgbs)))
        (read_color int truediv (pre ++ body) tr) acc =
      Ok (acc ++ colors).
Proof.
  induction rgbs as [|[[r0 g0] b0] rgbs IH]; intros colors pre body acc Hbody Hcolors.
  - inversion Hcolors; subst. cbn. by rewrite app_nil_r.
  - change (pnm_body ((r0, g0, b0) :: rgbs)) with (r0 :: g0 :: b0 :: pnm_body rgbs) in Hbody.
    inversion Hbody as [|sa ? body1 ? Ha H1]; subst.
    inversion H1 as [|sb ? body2 ? Hb H2]; subst.
    inversion H2 as [|sc ? body3 ? Hc H3]; subst.
    inversion Hcolors as [|? value ? colors' Hvalue Hcolors']; subst.
    replace (Z.of_nat (length ((r0, g0, b0) :: rgbs)))
      with (1 + Z.of_nat (length rgbs)) by (cbn [length]; lia).
    rewrite parse_head by lia.
    unfold unpack3, to_int. rewrite Ha, Hb, Hc. cbn [mbind result_bind mret result_ret].
    rewrite Hvalue. cbn [mbind result_bind].
    rewrite (IH colors') by done. by rewrite <- (assoc_L (++)).
Qed.

Lemma unpack3_ok (fields : list pystr) (r0 g0 b0 : Z) :
  unpack3 int fields = Ok (r0, g0, b0) ->
  exists sa sb sc,
    fields = [sa; sb; sc] /\ int sa = Some r0 /\ int sb = Some g0 /\ int sc = Some b0.
Proof.
  destruct fields as [|sa [|sb [|sc [|? ?]]]]; try done.
  unfold unpack3, to_int.
  destruct (int sa) as [x|] eqn:Ha; [|done]. destruct (int sb) as [y|] eqn:Hb; [|done].
  destruct (int sc) as [z|] eqn:Hc; [|done]. cbn. intros [= <- <- <-].
  by exists sa, sb, sc.
Qed.

Lemma parse_inv (tr : option (Z * Z * Z)) (n : nat) :
  forall body pre acc values,
    (length body <= n)%nat ->
    PyList.for_each
        ((fun k => Z.of_nat (length pre) + k * 3) <$>
           seqZ 0 ((Z.of_nat (length body) + 2) `div` 3))
        (read_color int truediv (pre ++ body) tr) acc = Ok values ->
    exists rgbs colors,
      pnm_parses int body (pnm_body rgbs) /\
      pnm_colors truediv tr rgbs colors /\ values = acc ++ colors.
Proof.
  assert (Hshort : forall pre body acc,
            body <> [] -> (length body < 3)%nat ->
            read_color int truediv (pre ++ body) tr (Z.of_nat (length pre) + 0 * 3) acc =
              Raise ValueError).
  { intros pre body acc Hne Hlen. unfold read_color, slice.
    replace (Z.to_nat (Z.of_nat (length pre) + 0 * 3 + 3 - (Z.of_nat (length pre) + 0 * 3)))
      with 3%nat by lia.
    replace (Z.to_nat (Z.of_nat (length pre) + 0 * 3)) with (length pre) by lia.
    rewrite drop_app_length.
    destruct body as [|sa [|sb [|sc body]]]; [congruence | reflexivity | reflexivity | cbn in Hlen; lia]. }
  assert (Hone : forall pre body acc,
            body <> [] -> (length body < 3)%nat ->
            PyList.for_each
              ((fun k => Z.of_nat (length pre) + k * 3) <$>
                 seqZ 0 ((Z.of_nat (length body) + 2) `div` 3))
              (read_color int truediv (pre ++ body) tr) acc = Raise ValueError).
  { intros pre body acc Hne Hlen.
    replace ((Z.of_nat (length body) + 2) `div` 3) with 1.
    - rewrite seqZ_cons by lia. rewrite fmap_cons. cbn [PyList.for_each].
      by rewrite Hshort.
    - destruct body as [|sa [|sb [|sc body]]]; [congruence | reflexivity | reflexivity | cbn in Hlen; lia]. }
  induction n as [|n IH]; intros body pre acc values Hn Hloop.
  - destruct body; [|cbn in Hn; lia]. cbn in Hloop. injection Hloop as <-.
    exists [], []. split_and!; [constructor..|]. by rewrite app_nil_r.
  - destruct (decide (body = [])) as [->|Hne].
    { cbn in Hloop. injection Hloop as <-.
      exists [], []. split_and!; [constructor..|]. by rewrite app_nil_r. }
    destruct (decide (length body < 3)%nat) as [Hlt|Hge].
    { by rewrite Hone in Hloop. }
    destruct body as [|sa [|sb [|sc body]]]; [done | cbn in Hge; lia..|].
    replace ((Z.of_nat (length (sa :: sb :: sc :: body)) + 2) `div` 3)
      with (1 + (Z.of_nat (length body) + 2) `div` 3) in Hloop.
    2:{ cbn [length].
        replace (Z.of_nat (S (S (S (length body)))) + 2)
          with (Z.of_nat (length body) + 2 + 1 * 3) by lia.
        rewrite Z.div_add by lia. lia. }
    rewrite parse_head in Hloop by (apply Z.div_pos; lia).
    destruct (unpack3 int [sa; sb; sc]) as [[[r0 g0] b0]|e] eqn:Hrgb; [|done].
    cbn [mbind result_bind] in Hloop.
    destruct (color truediv tr (r0, g0, b0)) as [value|e] eqn:Hvalue; [|done].
    cbn [mbind result_bind] in Hloop.
    apply IH in Hloop as (rgbs & colors & Hbody & Hcolors & ->); [|cbn in Hn; lia].
    apply unpack3_ok in Hrgb as (? & ? & ? & [= <- <- <-] & Ha & Hb & Hc).
    exists ((r0, g0, b0) :: rgbs), (value :: colors). split_and!.
    + change (pnm_body ((r0, g0, b0) :: rgbs)) with (r0 :: g0 :: b0 :: pnm_body rgbs).
      by repeat constructor.
    + by constructor.
    + by rewrite <- (assoc_L (++)).
Qed.

Lemma parses_length (body : list pystr) (rgbs : list (Z * Z * Z)) :
  pnm_parses int body (pnm_body rgbs) -> length body = (3 * length rgbs)%nat.
Proof.
  intros H%Forall2_length. rewrite H. clear H.
  induction rgbs as [|[[r0 g0] b0] rgbs IH]; [done|].
  change (pnm_body ((r0, g0, b0) :: rgbs)) with (r0 :: g0 :: b0 :: pnm_body rgbs).
  cbn [length]. lia.
Qed.

(** The loader reads the stripped lines that are no comments, and
    nothing else of the file. *)
Lemma from_pnm_lines (f1 f2 : list pystr) (crop_to : option (Z * Z * Z * Z))
    (tr : option (Z * Z * Z)) :
  pnm_lines strip f1 = pnm_lines strip f2 ->
  from_pnm strip split int truediv f1 crop_to tr =
    from_pnm strip split int truediv f2 crop_to tr.
Proof.
  intros H. unfold from_pnm. cbv zeta.
  change (List.filter _ (strip <$> f1)) with (pnm_lines strip f1).
  change (List.filter _ (strip <$> f2)) with (pnm_lines strip f2).
  by rewrite H.
Qed.

Lemma from_pnm_header (file : list pystr) (crop_to : option (Z * Z * Z * Z))
    (tr : option (Z * Z * Z)) (l0 l1 l2 : pystr) (body : list pystr) :
  pnm_lines strip file = l0 :: l1 :: l2 :: body ->
  from_pnm strip split int truediv file crop_to tr =
    _ ← assert (bool_decide (l0 = str "P3"));
    wh ← unpack2 int (split l1);
    _ ← assert (bool_decide (l2 = str "255"));
    values ← PyList.for_each
      ((fun k => 3 + k * 3) <$> seqZ 0 ((Z.of_nat (length body) + 2) `div` 3))
      (read_color int truediv ([l0; l1; l2] ++ body) tr) [];
    _ ← assert (bool_decide (Z.of_nat (length values) = wh.1 * wh.2));
    build wh.1 wh.2 values crop_to.
Proof.
  intros H. unfold from_pnm. cbv zeta.
  change (List.filter _ (strip <$> file)) with (pnm_lines strip file).
  rewrite H. rewrite (getitem_ok _ 0 l0) by done. cbn [mbind result_bind].
  destruct (assert (bool_decide (l0 = str "P3"))) as [[]|e]; [|done].
  cbn [mbind result_bind].
  rewrite (getitem_ok _ 1 l1) by done. cbn [mbind result_bind].
  destruct (unpack2 int (split l1)) as [[w h]|e]; [|done].
  cbn [mbind result_bind].
  rewrite (getitem_ok _ 2 l2) by done. cbn [mbind result_bind].
  destruct (assert (bool_decide (l2 = str "255"))) as [[]|e]; [|done].
  cbn [mbind result_bind].
  change (length (l0 :: l1 :: l2 :: body)) with (3 + length body)%nat.
  by rewrite range_step_body.
Qed.

Lemma build_ok (w h : Z) (values : list pixel) :
  0 < w -> 0 < h -> Z.of_nat (length values) = w * h ->
  exists img,
    build w h values None = Ok img /\ image_wf img /\ size img = (w, h) /\
    forall x y, inside img x y = true ->
      exists p,
        values !! Z.to_nat (y * w + x) = Some p /\
        __getitem__ img (x, y) = Ok (color_of p).
Proof.
  intros Hw Hh Hlen.
  destruct (init_ok w h) as (t0 & Hinit & Ht0 & Hsize0); [lia..|].
  assert (Hw0 : _width t0 = w) by (unfold size in Hsize0; by injection Hsize0).
  assert (Hh0 : _height t0 = h) by (unfold size in Hsize0; by injection Hsize0).
  assert (Hsrc : forall x y, 0 <= x < w -> 0 <= y < h ->
            exists p, values !! Z.to_nat (y * w + x) = Some p /\
                      PyList.getitem values (y * w + x) = Ok p).
  { intros x y Hx Hy.
    destruct (lookup_lt_is_Some_2 values (Z.to_nat (y * w + x))) as [p Hp]; [nia|].
    exists p. split; [done|]. apply getitem_ok; [nia | done]. }
  destruct (fill_rows (fun x y => color_of <$> PyList.getitem values (y * w + x))
              t0 0 0 (w - 1) (PyList.range 0 h) Ht0)
    as (t & Hloop & Ht & Hsize & Hpix); [lia| |].
  { intros x y Hx [Hy Hy']%elem_of_seqZ.
    destruct (Hsrc x y) as (p & _ & Hp); [lia..|].
    split; [|lia]. exists (color_of p). by rewrite Hp. }
  exists t. split_and!; [|done|congruence|].
  - unfold build. rewrite Hinit. cbn [mbind result_bind].
    replace (w - 1 + 1) with w in Hloop by lia.
    erewrite for_each_ext; [rewrite Hloop; done|].
    intros y s _. cbn beta. apply for_each_ext. intros x s' _. cbn beta.
    rewrite !Z.sub_0_r.
    by destruct (PyList.getitem values (y * w + x)).
  - intros x y Hxy. rewrite (inside_size t t0) in Hxy by done.
    rewrite Hpix by done.
    apply inside_spec in Hxy as [Hx Hy]. rewrite Hw0 in Hx. rewrite Hh0 in Hy.
    rewrite decide_True by (apply elem_of_seqZ; lia).
    rewrite !Z.add_0_r.
    destruct (Hsrc x y) as (p & Hp & Hg); [lia..|].
    exists p. split; [done|]. by rewrite Hg.
Qed.

Lemma build_inv (w h : Z) (values : list pixel) (crop_to : option (Z * Z * Z * Z))
    (img : Image) :
  build w h values crop_to = Ok img -> 0 < w /\ 0 < h.
Proof.
  unfold build, __init__.
  destruct ((0 <? w) && (0 <? h)) eqn:Hwh; [lia|done].
Qed.

Lemma build_crop (w h : Z) (values : list pixel) (rect : Z * Z * Z * Z) :
  build w h values (Some rect) =
    img ← build w h values None; crop img rect.
Proof.
  unfold build. destruct (__init__ w h) as [t0|e]; [|done].
  cbn [mbind result_bind].
  by destruct (PyList.for_each _ _ t0).
Qed.

Lemma from_pnm_ok (file : list pystr) (tr : option (Z * Z * Z))
    (dims ws hs : pystr) (w h : Z) (body : list pystr) (rgbs : list (Z * Z * Z))
    (colors : list pixel) :
  pnm_lines strip file = str "P3" :: dims :: str "255" :: body ->
  split dims = [ws; hs] -> int ws = Some w -> int hs = Some h ->
  pnm_parses int body (pnm_body rgbs) ->
  pnm_colors truediv tr rgbs colors ->
  0 < w -> 0 < h -> Z.of_nat (length rgbs) = w * h ->
  exists img,
    from_pnm strip split int truediv file None tr = Ok img /\
    image_wf img /\ size img = (w, h) /\
    forall x y, inside img x y = true ->
      exists rgb value,
        rgbs !! Z.to_nat (y * w + x) = Some rgb /\
        color truediv tr rgb = Ok value /\
        __getitem__ img (x, y) = Ok (color_of value).
Proof.
  intros Hlines Hsplit Hws Hhs Hbody Hcolors Hw Hh Hcount.
  destruct (build_ok w h colors Hw Hh)
    as (img & Hbuild & Himg & Hsize & Hpix).
  { by rewrite <- (Forall2_length _ _ _ Hcolors). }
  exists img. split_and!; [|done|done|].
  - rewrite (from_pnm_header _ _ _ _ _ _ _ Hlines).
    rewrite bool_decide_true by done. cbn [assert mbind result_bind].
    rewrite Hsplit. unfold unpack2, to_int. rewrite Hws, Hhs.
    cbn [mbind result_bind mret result_ret fst snd].
    replace ((Z.of_nat (length body) + 2) `div` 3) with (Z.of_nat (length rgbs)).
    2:{ rewrite (parses_length _ _ Hbody).
        replace (Z.of_nat (3 * length rgbs) + 2) with (2 + Z.of_nat (length rgbs) * 3) by lia.
        by rewrite Z.div_add by lia. }
    pose proof (parse_ok tr rgbs colors [str "P3"; dims; str "255"] body []
                  Hbody Hcolors) as Hvalues.
    change (Z.of_nat (length [str "P3"; dims; str "255"])) with 3 in Hvalues.
    rewrite Hvalues.
    cbn [mbind result_bind app].
    rewrite bool_decide_true by (by rewrite <- (Forall2_length _ _ _ Hcolors)).
    done.
  - intros x y Hxy. destruct (Hpix x y Hxy) as (value & Hvalue & Hg).
    destruct (Forall2_lookup_r _ _ _ _ _ Hcolors Hvalue) as (rgb & Hrgb & Hc).
    by exists rgb, value.
Qed.

Lemma unpack2_ok (fields : list pystr) (w h : Z) :
  unpack2 int fields = Ok (w, h) ->
  exists ws hs, fields = [ws; hs] /\ int ws = Some w /\ int hs = Some h.
Proof.
  destruct fields as [|ws [|hs [|? ?]]]; try done.
  unfold unpack2, to_int.
  destruct (int ws) as [x|] eqn:Ha; [|done]. destruct (int hs) as [y|] eqn:Hb; [|done].
  cbn. intros [= <- <-]. by exists ws, hs.
Qed.

Lemma from_pnm_inv (file : list pystr) (crop_to : option (Z * Z * Z * Z))
    (tr : option (Z * Z * Z)) (img : Image) :
  from_pnm strip split int truediv file crop_to tr = Ok img ->
  exists dims ws hs w h body rgbs colors,
    pnm_lines strip file = str "P3" :: dims :: str "255" :: body /\
    split dims = [ws; hs] /\ int ws = Some w /\ int hs = Some h /\
    pnm_parses int body (pnm_body rgbs) /\
    pnm_colors truediv tr rgbs colors /\
    0 < w /\ 0 < h /\ Z.of_nat (length rgbs) = w * h.
Proof.
  intros Hload.
  destruct (pnm_lines strip file) as [|l0 [|l1 [|l2 body]]] eqn:Hlines.
  - exfalso. revert Hload. unfold from_pnm. cbv zeta.
    change (List.filter _ (strip <$> file)) with (pnm_lines strip file).
    by rewrite Hlines.
  - exfalso. revert Hload. unfold from_pnm. cbv zeta.
    change (List.filter _ (strip <$> file)) with (pnm_lines strip file).
    rewrite Hlines. rewrite (getitem_ok _ 0 l0) by done. cbn [mbind result_bind].
    destruct (assert _) as [[]|e]; [|done]. cbn [mbind result_bind].
    by rewrite (getitem_short _ 1) by (cbn; lia).
  - exfalso. revert Hload. unfold from_pnm. cbv zeta.
    change (List.filter _ (strip <$> file)) with (pnm_lines strip file).
    rewrite Hlines. rewrite (getitem_ok _ 0 l0) by done. cbn [mbind result_bind].
    destruct (assert _) as [[]|e]; [|done]. cbn [mbind result_bind].
    rewrite (getitem_ok _ 1 l1) by done. cbn [mbind result_bind].
    destruct (unpack2 int (split l1)) as [[w h]|e]; [|done].
    cbn [mbind result_bind].
    by rewrite (getitem_short _ 2) by (cbn; lia).
  - rewrite (from_pnm_header _ _ _ _ _ _ _ Hlines) in Hload.
    destruct (decide (l0 = str "P3")) as [->|Hne];
      [rewrite (bool_decide_true (str "P3" = str "P3")) in Hload by done
      |by rewrite (bool_decide_false (l0 = str "P3")) in Hload by done].
    cbn [assert mbind result_bind] in Hload.
    destruct (unpack2 int (split l1)) as [[w h]|e] eqn:Hdims; [|done].
    cbn [mbind result_bind fst snd] in Hload.
    destruct (decide (l2 = str "255")) as [->|Hne];
      [rewrite (bool_decide_true (str "255" = str "255")) in Hload by done
      |by rewrite (bool_decide_false (l2 = str "255")) in Hload by done].
    cbn [assert mbind result_bind] in Hload.
    destruct (PyList.for_each _ _ []) as [values|e] eqn:Hvalues; [|done].
    cbn [mbind result_bind] in Hload.
    destruct (decide (Z.of_nat (length values) = w * h)) as [Hcount|Hne];
      [rewrite bool_decide_true in Hload by done
      |by rewrite bool_decide_false in Hload by done].
    cbn [assert mbind result_bind] in Hload.
    apply build_inv in Hload as [Hw Hh].
    apply (parse_inv tr (length body) body [str "P3"; l1; str "255"]) in Hvalues
      as (rgbs & colors & Hbody & Hcolors & ->); [|done].
    apply unpack2_ok in Hdims as (ws & hs & Hsplit & Hws & Hhs).
    exists l1, ws, hs, w, h, body, rgbs, colors.
    cbn [app] in Hcount. rewrite <- (Forall2_length _ _ _ Hcolors) in Hcount.
    by split_and!.
Qed.

Lemma from_pnm_crop (file : list pystr) (rect : Z * Z * Z * Z)
    (tr : option (Z * Z * Z)) :
  from_pnm strip split int truediv file (Some rect) tr =
    img ← from_pnm strip split int truediv file None tr; crop img rect.
Proof.
  unfold from_pnm. cbv zeta.
  destruct (PyList.getitem _ 0) as [magic|e]; [|done]. cbn [mbind result_bind].
  destruct (assert (bool_decide (magic = str "P3"))) as [[]|e]; [|done].
  cbn [mbind result_bind].
  destruct (PyList.getitem _ 1) as [dims|e]; [|done]. cbn [mbind result_bind].
  destruct (unpack2 int (split dims)) as [[w h]|e]; [|done]. cbn [mbind result_bind].
  destruct (PyList.getitem _ 2) as [depth|e]; [|done]. cbn [mbind result_bind].
  destruct (assert (bool_decide (depth = str "255"))) as [[]|e]; [|done].
  cbn [mbind result_bind].
  destruct (PyList.for_each _ _ []) as [values|e]; [|done]. cbn [mbind result_bind].
  destruct (assert (bool_decide (Z.of_nat (length values) = w * h))) as [[]|e]; [|done].
  cbn [mbind result_bind]. apply build_crop.
Qed.

Lemma pnm_lines_app (f1 f2 : list pystr) :
  pnm_lines strip (f1 ++ f2) = pnm_lines strip f1 ++ pnm_lines strip f2.
Proof. unfold pnm_lines. by rewrite fmap_app, List.filter_app. Qed.

(** X22. A well-formed file loads.  When the lines, stripped and without
    the comment lines, are [P3], a line of two numbers [w] and [h], [255]
    and then three numbers for each of [w * h] pixels, and no division
    raises, [from_pnm] returns an image of [w] by [h] pixels whose pixel
    [(x, y)] is the color made of the [y * w + x]-th triple of the file:
    each component divided by 255, and alpha [0.0] if the triple is the
    transparency color, [1.0] if not. *)
Theorem from_pnm_pixels (file : list pystr) (tr : option (Z * Z * Z))
    (dims ws hs : pystr) (w h : Z) (body : list pystr) (rgbs : list (Z * Z * Z))
    (colors : list pixel) :
  pnm_lines strip file = str "P3" :: dims :: str "255" :: body ->
  split dims = [ws; hs] -> int ws = Some w -> int hs = Some h ->
  pnm_parses int body (pnm_body rgbs) ->
  pnm_colors truediv tr rgbs colors ->
  0 < w -> 0 < h -> Z.of_nat (length rgbs) = w * h ->
  exists img,
    from_pnm strip split int truediv file None tr = Ok img /\
    image_wf img /\ size img = (w, h) /\
    forall x y, inside img x y = true ->
      exists rgb value,
        rgbs !! Z.to_nat (y * w + x) = Some rgb /\
        color truediv tr rgb = Ok value /\
        __getitem__ img (x, y) = Ok (color_of value).
Proof. apply from_pnm_ok. Qed.

(** X23. Nothing else loads.  When [from_pnm] returns an image, the
    first content line is [P3], the second holds two positive numbers,
    the third is [255], and the lines after them are numbers, three for
    each pixel and as many pixels as width times height, that the
    division takes. *)
Theorem from_pnm_accepts_only (file : list pystr) (crop_to : option (Z * Z * Z * Z))
    (tr : option (Z * Z * Z)) (img : Image) :
  from_pnm strip split int truediv file crop_to tr = Ok img ->
  exists dims ws hs w h body rgbs colors,
    pnm_lines strip file = str "P3" :: dims :: str "255" :: body /\
    split dims = [ws; hs] /\ int ws = Some w /\ int hs = Some h /\
    pnm_parses int body (pnm_body rgbs) /\
    pnm_colors truediv tr rgbs colors /\
    0 < w /\ 0 < h /\ Z.of_nat (length rgbs) = w * h.
Proof. apply from_pnm_inv. Qed.

(** X24. A file whose header and numbers are in order but whose number
    of pixels is not width times height, or whose width or height is not
    positive, is refused with [AssertionError], after all its colors
    have been read. *)
Theorem from_pnm_wrong_count (file : list pystr) (crop_to : option (Z * Z * Z * Z))
    (tr : option (Z * Z * Z))
    (dims ws hs : pystr) (w h : Z) (body : list pystr) (rgbs : list (Z * Z * Z))
    (colors : list pixel) :
  pnm_lines strip file = str "P3" :: dims :: str "255" :: body ->
  split dims = [ws; hs] -> int ws = Some w -> int hs = Some h ->
  pnm_parses int body (pnm_body rgbs) ->
  pnm_colors truediv tr rgbs colors ->
  w <= 0 \/ h <= 0 \/ Z.of_nat (length rgbs) <> w * h ->
  from_pnm strip split int truediv file crop_to tr = Raise AssertionError.
Proof.
  intros Hlines Hsplit Hws Hhs Hbody Hcolors Hbad.
  rewrite (from_pnm_header _ _ _ _ _ _ _ Hlines).
  rewrite bool_decide_true by done. cbn [assert mbind result_bind].
  rewrite Hsplit. unfold unpack2, to_int. rewrite Hws, Hhs.
  cbn [mbind result_bind mret result_ret fst snd].
  replace ((Z.of_nat (length body) + 2) `div` 3) with (Z.of_nat (length rgbs)).
  2:{ rewrite (parses_length _ _ Hbody).
      replace (Z.of_nat (3 * length rgbs) + 2) with (2 + Z.of_nat (length rgbs) * 3) by lia.
      by rewrite Z.div_add by lia. }
  pose proof (parse_ok tr rgbs colors [str "P3"; dims; str "255"] body []
                Hbody Hcolors) as Hvalues.
  change (Z.of_nat (length [str "P3"; dims; str "255"])) with 3 in Hvalues.
  rewrite Hvalues. cbn [mbind result_bind app].
  rewrite <- (Forall2_length _ _ _ Hcolors).
  destruct (decide (Z.of_nat (length rgbs) = w * h)) as [Hcount|Hcount].
  - rewrite bool_decide_true by done. cbn [assert mbind result_bind].
    unfold build, __init__.
    replace ((0 <? w) && (0 <? h)) with false by lia. done.
  - by rewrite bool_decide_false by done.
Qed.

(** X25. Comment lines count for nothing: a line that, once stripped,
    starts with [#] can be put in or taken out anywhere in the file,
    between the numbers of a pixel too, and the result stays the same. *)
Theorem from_pnm_comments (f1 f2 : list pystr) (line : pystr)
    (crop_to : option (Z * Z * Z * Z)) (tr : option (Z * Z * Z)) :
  is_comment (strip line) = true ->
  from_pnm strip split int truediv (f1 ++ line :: f2) crop_to tr =
    from_pnm strip split int truediv (f1 ++ f2) crop_to tr.
Proof.
  intros Hline. apply from_pnm_lines.
  rewrite !pnm_lines_app. f_equal.
  unfold pnm_lines. rewrite fmap_cons. cbn [List.filter]. by rewrite Hline.
Qed.

(** X26. Loading with [crop_to] gives the rectangle of the loaded
    image: for a well-formed file and a rectangle inside the image, the
    result has the size of the rectangle and its pixel [(i, j)] is made
    of the triple of the file's pixel [(x0 + i, y0 + j)]. *)
Theorem from_pnm_cropped (file : list pystr) (tr : option (Z * Z * Z))
    (dims ws hs : pystr) (w h : Z) (body : list pystr) (rgbs : list (Z * Z * Z))
    (colors : list pixel) (x0 y0 x1 y1 : Z) :
  pnm_lines strip file = str "P3" :: dims :: str "255" :: body ->
  split dims = [ws; hs] -> int ws = Some w -> int hs = Some h ->
  pnm_parses int body (pnm_body rgbs) ->
  pnm_colors truediv tr rgbs colors ->
  Z.of_nat (length rgbs) = w * h ->
  0 <= x0 <= x1 -> x1 < w -> 0 <= y0 <= y1 -> y1 < h ->
  exists img,
    from_pnm strip split int truediv file (Some (x0, y0, x1, y1)) tr = Ok img /\
    image_wf img /\ size img = (x1 - x0 + 1, y1 - y0 + 1) /\
    forall i j, inside img i j = true ->
      exists rgb value,
        rgbs !! Z.to_nat ((y0 + j) * w + (x0 + i)) = Some rgb /\
        color truediv tr rgb = Ok value /\
        __getitem__ img (i, j) = Ok (color_of value).
Proof.
  intros Hlines Hsplit Hws Hhs Hbody Hcolors Hcount Hx Hx1 Hy Hy1.
  destruct (from_pnm_ok file tr dims ws hs w h body rgbs colors)
    as (full & Hfull & Hwf & Hsize & Hpix); [done..|lia|lia|done|].
  assert (Hwf' : _width full = w) by (unfold size in Hsize; by injection Hsize).
  assert (Hhf : _height full = h) by (unfold size in Hsize; by injection Hsize).
  destruct (crop_ok full x0 y0 x1 y1 Hwf) as (img & Hcrop & Himg & Hsz & Hcp); [lia..|].
  exists img. split_and!; [|done|done|].
  - by rewrite from_pnm_crop, Hfull.
  - intros i j Hij. rewrite Hcp by done.
    assert (Hin : inside full (i + x0) (j + y0) = true).
    { apply inside_spec in Hij as [Hi Hj].
      unfold size in Hsz. injection Hsz as Hw2 Hh2. apply inside_spec. lia. }
    destruct (Hpix _ _ Hin) as (rgb & value & Hrgb & Hvalue & Hget).
    exists rgb, value. split; [|done].
    by replace ((y0 + j) * w + (x0 + i)) with ((j + y0) * w + (i + x0)) by lia.
Qed.

(** X27. A file with no content, empty or of comment lines only, fails
    with [IndexError]: the loader asks for the first line without
    looking whether there is one. *)
Theorem from_pnm_no_content (file : list pystr) (crop_to : option (Z * Z * Z * Z))
    (tr : option (Z * Z * Z)) :
  Forall (fun line => is_comment (strip line) = true) file ->
  from_pnm strip split int truediv file crop_to tr = Raise IndexError.
Proof.
  intros Hfile.
  assert (Hlines : pnm_lines strip file = []).
  { induction Hfile as [|line file Hline _ IH]; [done|].
    unfold pnm_lines. rewrite fmap_cons. cbn [List.filter]. by rewrite Hline. }
  unfold from_pnm. cbv zeta.
  change (List.filter _ (strip <$> file)) with (pnm_lines strip file).
  by rewrite Hlines.
Qed.

End PNMProps.

(** ** Runs of the loader on [sample_pnm] *)

Section PNMRuns.

Import Image PNMLoader.

Lemma from_pnm_pixels_witness :
  exists img,
    from_pnm AsciiText.strip AsciiText.split AsciiText.int AsciiText.truediv
      sample_pnm None (Some (0, 0, 0)) = Ok img /\
    image_wf img /\ size img = (2, 1) /\
    forall x y, inside img x y = true ->
      exists rgb value,
        [(0, 0, 0); (255, 0, 0)] !! Z.to_nat (y * 2 + x) = Some rgb /\
        color AsciiText.truediv (Some (0, 0, 0)) rgb = Ok value /\
        __getitem__ img (x, y) = Ok (color_of value).
Proof.
  apply (from_pnm_pixels AsciiText.strip AsciiText.split AsciiText.int AsciiText.truediv
           sample_pnm (Some (0, 0, 0)) (str "2 1") (str "2") (str "1") 2 1
           (str <$> ["0"; "0"; "0"; "255"; "0"; "0"]%string)
           [(0, 0, 0); (255, 0, 0)]
           [(Float 0, Float 0, Float 0, Float 0); (Float 1, Float 0, Float 0, Float 1)]).
  - reflexivity.
  - reflexivity.
  - reflexivity.
  - reflexivity.
  - repeat constructor.
  - repeat constructor.
  - lia.
  - lia.
  - reflexivity.
Defined.

Lemma from_pnm_accepts_only_witness :
  exists dims ws hs w h body rgbs colors,
    pnm_lines AsciiText.strip sample_pnm = str "P3" :: dims :: str "255" :: body /\
    AsciiText.split dims = [ws; hs] /\
    AsciiText.int ws = Some w /\ AsciiText.int hs = Some h /\
    pnm_parses AsciiText.int body (pnm_body rgbs) /\
    pnm_colors AsciiText.truediv (Some (0, 0, 0)) rgbs colors /\
    0 < w /\ 0 < h /\ Z.of_nat (length rgbs) = w * h.
Proof.
  apply (from_pnm_accepts_only AsciiText.strip AsciiText.split AsciiText.int
           AsciiText.truediv sample_pnm None (Some (0, 0, 0))
           (mk_Image 2 1 [(Float 0, Float 0, Float 0, Float 0);
                          (Float 1, Float 0, Float 0, Float 1)])).
  reflexivity.
Defined.

Lemma from_pnm_wrong_count_witness :
  from_pnm AsciiText.strip AsciiText.split AsciiText.int AsciiText.truediv
    (take 7 sample_pnm) None None = Raise AssertionError.
Proof.
  apply (from_pnm_wrong_count AsciiText.strip AsciiText.split AsciiText.int
           AsciiText.truediv (take 7 sample_pnm) None None
           (str "2 1") (str "2") (str "1") 2 1
           (str <$> ["0"; "0"; "0"]%string) [(0, 0, 0)]
           [(Float 0, Float 0, Float 0, Float 1)]).
  - reflexivity.
  - reflexivity.
  - reflexivity.
  - reflexivity.
  - repeat constructor.
  - repeat constructor.
  - right. right. cbn. lia.
Defined.

Lemma from_pnm_comments_witness :
  from_pnm AsciiText.strip AsciiText.split AsciiText.int AsciiText.truediv
    (take 5 sample_pnm ++ str "  # green follows" :: drop 5 sample_pnm) None None =
  from_pnm AsciiText.strip AsciiText.split AsciiText.int AsciiText.truediv
    (take 5 sample_pnm ++ drop 5 sample_pnm) None None.
Proof.
  apply (from_pnm_comments AsciiText.strip AsciiText.split AsciiText.int
           AsciiText.truediv (take 5 sample_pnm) (drop 5 sample_pnm)
           (str "  # green follows") None None).
  reflexivity.
Defined.

Lemma from_pnm_cropped_witness :
  exists img,
    from_pnm AsciiText.strip AsciiText.split AsciiText.int AsciiText.truediv
      sample_pnm (Some (1, 0, 1, 0)) None = Ok img /\
    image_wf img /\ size img = (1 - 1 + 1, 0 - 0 + 1) /\
    forall i j, inside img i j = true ->
      exists rgb value,
        [(0, 0, 0); (255, 0, 0)] !! Z.to_nat ((0 + j) * 2 + (1 + i)) = Some rgb /\
        color AsciiText.truediv None rgb = Ok value /\
        __getitem__ img (i, j) = Ok (color_of value).
Proof.
  apply (from_pnm_cropped AsciiText.strip AsciiText.split AsciiText.int AsciiText.truediv
           sample_pnm None (str "2 1") (str "2") (str "1") 2 1
           (str <$> ["0"; "0"; "0"; "255"; "0"; "0"]%string)
           [(0, 0, 0); (255, 0, 0)]
           [(Float 0, Float 0, Float 0, Float 1); (Float 1, Float 0, Float 0, Float 1)]
           1 0 1 0).
  - reflexivity.
  - reflexivity.
  - reflexivity.
  - reflexivity.
  - repeat constructor.
  - repeat constructor.
  - reflexivity.
  - lia.
  - lia.
  - lia.
  - lia.
Defined.

Lemma from_pnm_no_content_witness :
  from_pnm AsciiText.strip AsciiText.split AsciiText.int AsciiText.truediv
    [str "# nothing"; str "   # here"] None None = Raise IndexError.
Proof.
  apply (from_pnm_no_content AsciiText.strip AsciiText.split AsciiText.int
           AsciiText.truediv [str "# nothing"; str "   # here"] None None).
  repeat constructor.
Defined.

End PNMRuns.

(** ** The script *)

Section MainProps.

Import Keyboard Main.

Lemma loop_frame (fuel : nat) (keyboard : nat) (printed : list (option token))
    (w : World) :
  match (loop fuel keyboard printed w).2 with
  | Returns _ w' | Raises _ w' => frame w w'
  | Blocks | Timeout => True
  end.
Proof.
  revert printed w. induction fuel as [|fuel IH]; intros printed w; [done|].
  cbn [loop]. pose proof (preserves_getch keyboard true w) as Hg.
  destruct (getch keyboard true w) as [key w1|e w1| |]; [|done..].
  case_bool_decide; [done|].
  specialize (IH (printed ++ [key]) w1).
  destruct (loop fuel keyboard (printed ++ [key]) w1).2; try done;
    by eapply frame_trans.
Qed.

Lemma fresh_instance (w : World) :
  self_of w (fresh (dom (heap w))) = inhabitant.
Proof.
  unfold self_of. rewrite lookup_total_alt.
  by rewrite (proj1 (not_elem_of_dom _ _) (is_fresh (dom (heap w)))).
Qed.

(** The script enters with a new instance, and its [__exit__] undoes
    the [__enter__] after any calls that are not an [__exit__]. *)
Lemma main_entered (w : World) :
  owner w = None ->
  exists keyboard w1,
    keyboard = fresh (dom (heap w)) /\
    __enter__ keyboard w = Returns keyboard w1 /\
    owner w1 = Some keyboard /\ pending w1 = [] /\ arrivals w1 = arrivals w /\
    _buffer (self_of w1 keyboard) = [] /\
    forall w2,
      frame w1 w2 ->
      exists w3, __exit__ keyboard w2 = Returns tt w3 /\
                 tty_attrs w3 = tty_attrs w /\ owner w3 = None.
Proof.
  intros Ho.
  exists (fresh (dom (heap w))).
  eexists. split; [done|]. split.
  { rewrite enter_unowned by done. by rewrite fresh_instance. }
  cbn [owner pending arrivals].
  split_and!; [done..| |].
  { rewrite self_of_insert. by rewrite decide_True. }
  intros w2 (Ho2 & Ha2 & Hs2). eexists. split.
  - apply exit_owner; [by rewrite Ho2|]. rewrite Hs2.
    rewrite self_of_insert. by rewrite decide_True.
  - done.
Qed.

(** X28. The script leaves the terminal as it found it: however it
    ends, by [ESC] or by an exception of the decoder, the terminal
    attributes and the owner slot are those of before the run. *)
Theorem main_restores_terminal (fuel : nat) (w : World) :
  match (main fuel w).2 with
  | Returns _ w' | Raises _ w' => tty_attrs w' = tty_attrs w /\ owner w' = owner w
  | Blocks | Timeout => True
  end.
Proof.
  destruct (owner w) as [o|] eqn:Ho.
  - unfold main. rewrite enter_owned by (by rewrite Ho). cbn. by rewrite Ho.
  - destruct (main_entered w Ho) as (keyboard & w1 & -> & Henter & _ & _ & _ & _ & Hexit).
    unfold main. rewrite Henter.
    pose proof (loop_frame fuel (fresh (dom (heap w))) [] w1) as Hf.
    destruct (loop fuel (fresh (dom (heap w))) [] w1) as [printed [[] w2|e w2| |]];
      cbn [snd] in *; [| |done..].
    + by destruct (Hexit w2 Hf) as (w3 & -> & Ht & Ho3).
    + by destruct (Hexit w2 Hf) as (w3 & -> & Ht & Ho3).
Qed.

Lemma burst_keys_nonempty (b : bytes) (keys : list token) :
  burst_keys b keys -> keys <> [].
Proof.
  intros (Hb & data & Hdec & Hkeys) ->.
  destruct (decode_loop_extends _ _ _ _ _ Hkeys) as (more & Hmore & Hne).
  destruct more; [|done]. destruct Hne; [|done..].
  by eapply utf8_decode_nonempty.
Qed.

(** A call of [getch] that waits, with bursts still to come: the next
    key is the head of what is buffered and what is to come. *)
Lemma getch_next (keyboard : nat) (w : World) (buf : list token)
    (bursts a : list bytes) (kss : list (list token)) (k : token) (tail : list token) :
  owner w = Some keyboard -> pending w = [] -> arrivals w = bursts ++ a ->
  _buffer (self_of w keyboard) = buf ->
  Forall2 burst_keys bursts kss ->
  buf ++ concat kss = k :: tail ->
  exists w' buf' bursts' kss',
    getch keyboard true w = Returns (Some k) w' /\
    owner w' = Some keyboard /\ pending w' = [] /\ arrivals w' = bursts' ++ a /\
    _buffer (self_of w' keyboard) = buf' /\
    Forall2 burst_keys bursts' kss' /\
    buf' ++ concat kss' = tail.
Proof.
  intros Ho Hp Ha Hb Hbursts Hkeys.
  destruct buf as [|k0 buf].
  - destruct Hbursts as [|b ks bursts kss Hbk Hbursts]; [done|].
    pose proof (burst_keys_nonempty _ _ Hbk) as Hne.
    destruct ks as [|k1 ks]; [done|].
    cbn [app concat] in Hkeys. injection Hkeys as -> <-.
    destruct Hbk as (Hbne & data & Hdec & Hdata).
    assert (Hr : ready true w = Some (b, bursts ++ a)).
    { unfold ready. rewrite Hp, Ha. by destruct b. }
    exists (with_input_buffer w [] (bursts ++ a) keyboard ks), ks, bursts, kss.
    split; [by eapply getch_ready_returns|].
    split_and!; try done. by rewrite self_of_with_input_buffer.
  - cbn [app] in Hkeys. injection Hkeys as -> <-.
    exists (with_input_buffer w (pending w) (arrivals w) keyboard buf), buf, bursts, kss.
    split; [by apply getch_buffered|].
    split_and!; try done. by rewrite self_of_with_input_buffer.
Qed.

Lemma loop_until_esc (keyboard : nat) (a : list bytes) (keys : list token) :
  forall fuel w printed buf bursts kss rest,
    owner w = Some keyboard -> pending w = [] -> arrivals w = bursts ++ a ->
    _buffer (self_of w keyboard) = buf ->
    Forall2 burst_keys bursts kss ->
    buf ++ concat kss = keys ++ Keys.ESC :: rest ->
    Keys.ESC ∉ keys ->
    (length keys < fuel)%nat ->
    exists w',
      loop fuel keyboard printed w =
        (printed ++ (Some <$> (keys ++ [Keys.ESC])), Returns tt w').
Proof.
  induction keys as [|k keys IH];
    intros fuel w printed buf bursts kss rest Ho Hp Ha Hb Hbursts Hkeys Hesc Hfuel;
    (destruct fuel as [|fuel]; [cbn in Hfuel; lia|]);
    destruct (getch_next keyboard w buf bursts a kss _ _ Ho Hp Ha Hb Hbursts Hkeys)
      as (w1 & buf1 & bursts1 & kss1 & Hg & Ho1 & Hp1 & Ha1 & Hb1 & Hbursts1 & Hkeys1);
    cbn [loop]; rewrite Hg.
  - rewrite bool_decide_true by done. by exists w1.
  - rewrite bool_decide_false.
    2:{ intros [= ->]. apply Hesc. by left. }
    destruct (IH fuel w1 (printed ++ [Some k]) buf1 bursts1 kss1 rest)
      as (w' & ->); try done.
    + intros Hin. apply Hesc. by right.
    + cbn in Hfuel. lia.
    + exists w'. by rewrite <- (assoc_L (++)).
Qed.

(** X29. The script prints the keys as they are typed, up to the first
    [ESC].  When the bursts typed after the start decode without error
    and the keys they stand for have an [ESC] among them, the script
    prints the keys before that [ESC] in order and then the [ESC], ends
    there without reading on, and leaves the terminal restored. *)
Theorem main_prints_until_esc (fuel : nat) (w : World) (bursts a : list bytes)
    (kss : list (list token)) (keys rest : list token) :
  owner w = None ->
  arrivals w = bursts ++ a ->
  Forall2 burst_keys bursts kss ->
  concat kss = keys ++ Keys.ESC :: rest ->
  Keys.ESC ∉ keys ->
  (length keys < fuel)%nat ->
  exists w',
    main fuel w = (Some <$> (keys ++ [Keys.ESC]), Returns tt w') /\
    tty_attrs w' = tty_attrs w /\ owner w' = None.
Proof.
  intros Ho Ha Hbursts Hkeys Hesc Hfuel.
  destruct (main_entered w Ho)
    as (keyboard & w1 & -> & Henter & Ho1 & Hp1 & Ha1 & Hb1 & Hexit).
  destruct (loop_until_esc (fresh (dom (heap w))) a keys fuel w1 [] [] bursts kss rest)
    as (w2 & Hloop); try done.
  { by rewrite Ha1. }
  pose proof (loop_frame fuel (fresh (dom (heap w))) [] w1) as Hf. rewrite Hloop in Hf.
  destruct (Hexit w2 Hf) as (w3 & Hw3 & Ht & Ho3).
  exists w3. split; [|done].
  unfold main. rewrite Henter, Hloop. by rewrite Hw3.
Qed.

(** X30. An exception of the decoder ends the script, and unprinted keys
    with it.  When the first burst typed makes the decode loop raise,
    the script ends with that exception; it has printed nothing, though
    the burst may have held good keys before the bad sequence; and the
    terminal is restored all the same. *)
Theorem main_decoder_exception (fuel : nat) (w : World) (p : bytes) (a : list bytes)
    (data : pystr) (keys : list token) (e : exn) :
  owner w = None ->
  Stdin.next_burst (arrivals w) = Some (p, a) ->
  Utf8.decode p = Ok data ->
  decode data [] = Some (keys, Some e) ->
  (0 < fuel)%nat ->
  exists w',
    main fuel w = ([], Raises e w') /\
    tty_attrs w' = tty_attrs w /\ owner w' = None.
Proof.
  intros Ho Hnext Hdec Hkeys Hfuel.
  destruct (main_entered w Ho)
    as (keyboard & w1 & -> & Henter & Ho1 & Hp1 & Ha1 & Hb1 & Hexit).
  destruct fuel as [|fuel]; [lia|].
  assert (Hr : ready true w1 = Some (p, a)).
  { unfold ready. by rewrite Hp1, Ha1. }
  assert (Hg : getch (fresh (dom (heap w))) true w1 =
                 Raises e (with_input_buffer w1 [] a (fresh (dom (heap w))) keys)).
  { rewrite getch_empty, Hr by done. unfold bind at 1.
    rewrite read_into_buffer_spec by (by eapply ready_nonempty).
    cbn [pending arrivals with_input]. rewrite Hdec.
    rewrite self_of_with_input, Hb1, Hkeys.
    by rewrite with_input_buffer_with_input. }
  pose proof (loop_frame (S fuel) (fresh (dom (heap w))) [] w1) as Hf.
  assert (Hloop : loop (S fuel) (fresh (dom (heap w))) [] w1 =
                    ([], Raises e (with_input_buffer w1 [] a (fresh (dom (heap w))) keys))).
  { cbn [loop]. by rewrite Hg. }
  rewrite Hloop in Hf.
  destruct (Hexit _ Hf) as (w3 & Hw3 & Ht & Ho3).
  exists w3. split; [|done].
  unfold main. rewrite Henter, Hloop. by rewrite Hw3.
Qed.

Lemma main_prints_until_esc_witness :
  exists w',
    main 5 (mk_World None attrs0 [120] [[97]; [27; 91; 65; 27]; [98]] ∅) =
      (Some <$> ([[97]; Keys.UP] ++ [Keys.ESC]), Returns tt w') /\
    tty_attrs w' = tty_attrs (mk_World None attrs0 [120] [[97]; [27; 91; 65; 27]; [98]] ∅) /\
    owner w' = None.
Proof.
  apply (main_prints_until_esc 5
           (mk_World None attrs0 [120] [[97]; [27; 91; 65; 27]; [98]] ∅)
           [[97]; [27; 91; 65; 27]] [[98]] [[[97]]; [Keys.UP; Keys.ESC]]
           [[97]; Keys.UP] []).
  - reflexivity.
  - reflexivity.
  - constructor; [|constructor; [|constructor]].
    + split; [done|]. exists [97]. split; reflexivity.
    + split; [done|]. exists [27; 91; 65; 27]. split; reflexivity.
  - reflexivity.
  - intros [H|[H|H%elem_of_nil]%elem_of_cons]%elem_of_cons; [done..].
  - cbn. lia.
Defined.

Lemma main_decoder_exception_witness :
  exists w',
    main 1 (mk_World None attrs0 [] [[97; 27; 91; 57; 57; 126]] ∅) =
      ([], Raises KeyError w') /\
    tty_attrs w' = tty_attrs (mk_World None attrs0 [] [[97; 27; 91; 57; 57; 126]] ∅) /\
    owner w' = None.
Proof.
  apply (main_decoder_exception 1
           (mk_World None attrs0 [] [[97; 27; 91; 57; 57; 126]] ∅)
           [97; 27; 91; 57; 57; 126] [] [97; 27; 91; 57; 57; 126] [[97]] KeyError).
  - reflexivity.
  - reflexivity.
  - reflexivity.
  - reflexivity.
  - lia.
Defined.

End MainProps.
